(** * Event study engine ([quant/event_study.py])

    A shallow embedding of the [EventStudy] class: the market-model
    estimator, the abnormal-return calculator, the robust significance test,
    the outlier flag and the result assembler.

    Numbers are IEEE-754 binary64 values ([PrimFloat.float]), which is what
    [numpy.float64] and Python's [float] are.  Index labels are timestamps;
    calendar dates are day ordinals in [Z].  The object is a record that the
    methods thread through a state-and-exception monad.  Calls into
    yfinance, statsmodels, scipy and the Python formatting builtins are the
    fields of the class [Libs]. *)

From Stdlib Require Import String Ascii DecimalString ZArith List Bool Lia.
From Stdlib Require Import Floats.
Import ListNotations.

Set Warnings "-inexact-float".

Open Scope Z_scope.

(** ** Floating-point helpers *)

Module F.

Definition zero : float := 0%float.
Definition one : float := 1%float.

(** [float(n)] for a Python [int] that is a length or a small count. *)
Definition of_Z (z : Z) : float := PrimFloat.of_uint63 (Uint63.of_Z z).

(** Python's [min(a, b)]: the first argument is kept unless the second
    compares strictly below it. *)
Definition py_min (a b : float) : float :=
  if PrimFloat.ltb b a then b else a.

(** Insertion of a value into an ascending list, as a sort does it. *)
Fixpoint insert (x : float) (l : list float) : list float :=
  match l with
  | [] => [x]
  | y :: l' => if PrimFloat.leb x y then x :: l else y :: insert x l'
  end.

Definition sort (l : list float) : list float :=
  fold_right insert [] l.

End F.

(** ** numpy *)

Module Np.

(** [np.median]: [nan] as soon as one entry is [nan] (and on an empty
    array); otherwise the middle entry of the sorted values, or the mean
    [(a + b) / 2] of the two middle entries. *)
Definition median (l : list float) : float :=
  if existsb PrimFloat.is_nan l then nan
  else
    let s := F.sort l in
    let n := length s in
    match n with
    | O => nan
    | _ =>
        if Nat.even n
        then ((nth (n / 2 - 1) s nan + nth (n / 2) s nan) / 2)%float
        else nth (n / 2) s nan
    end.

(** [np.abs(a - c)] for an array [a] and a scalar [c]. *)
Definition abs_dev (l : list float) (c : float) : list float :=
  map (fun x => PrimFloat.abs (x - c)%float) l.

(** [np.sqrt(n)] for an integer [n]. *)
Definition sqrt_int (n : Z) : float := PrimFloat.sqrt (F.of_Z n).

(** The summation of [np.add.reduce] over a contiguous array of doubles
    (numpy's pairwise summation).  Below eight values they are added one
    after the other.  From eight on, eight running sums start as the first
    eight values and take the following values eight at a time; they are
    combined as a balanced tree and what is left of the array (fewer than
    eight values) is added one after the other. *)
Fixpoint unrolled (r0 r1 r2 r3 r4 r5 r6 r7 : float) (a : list float)
  : float :=
  match a with
  | a0 :: a1 :: a2 :: a3 :: a4 :: a5 :: a6 :: a7 :: rest =>
      unrolled (r0 + a0) (r1 + a1) (r2 + a2) (r3 + a3)
               (r4 + a4) (r5 + a5) (r6 + a6) (r7 + a7) rest
  | _ =>
      fold_left PrimFloat.add a
                (((r0 + r1) + (r2 + r3)) + ((r4 + r5) + (r6 + r7)))
  end%float.

Definition block_sum (a : list float) : float :=
  match a with
  | a0 :: a1 :: a2 :: a3 :: a4 :: a5 :: a6 :: a7 :: rest =>
      unrolled a0 a1 a2 a3 a4 a5 a6 a7 rest
  | _ => fold_left PrimFloat.add a (-0)%float
  end.

(** Above 128 values the array is split in two, the first part a multiple
    of eight long, and the sums of the parts are added.  Each part is
    shorter than the array, so [length a] levels are enough (see
    [pairwise_sum_levels]). *)
Fixpoint pairwise_sum (levels : nat) (a : list float) : float :=
  let n := length a in
  match levels with
  | S levels' =>
      if (128 <? n)%nat then
        let n2 := (n / 2 - (n / 2) mod 8)%nat in
        (pairwise_sum levels' (firstn n2 a)
         + pairwise_sum levels' (skipn n2 a))%float
      else block_sum a
  | O => block_sum a
  end.

(** [a.sum()] for a one-dimensional array of doubles: the reduction
    starts from the identity of addition. *)
Definition sum (a : list float) : float :=
  (0 + pairwise_sum (length a) a)%float.

End Np.

(** ** pandas *)

Record Timestamp : Type := mkTimestamp {
  ts_day : Z;      (* proleptic day ordinal of the calendar date *)
  ts_nanos : Z     (* time of day *)
}.

(** [ts.date()] *)
Definition date_of (t : Timestamp) : Z := ts_day t.

Definition Timestamp_eqb (a b : Timestamp) : bool :=
  (ts_day a =? ts_day b) && (ts_nanos a =? ts_nanos b).

(** A [pd.Series] of floats indexed by timestamps, in index order. *)
Definition Series := list (Timestamp * float).

Module Pd.

Definition index (s : Series) : list Timestamp := map fst s.
Definition values (s : Series) : list float := map snd s.

(** [isna] is false. *)
Definition notna (l : list float) : list float :=
  filter (fun x => negb (PrimFloat.is_nan x)) l.

(** The array the reductions work on ([skipna=True], their default): a
    copy in which every missing entry is 0. *)
Definition fillna0 (l : list float) : list float :=
  map (fun x => if PrimFloat.is_nan x then 0%float else x) l.

(** [Series.sum()]: numpy's sum of the array with the missing entries at
    0. *)
Definition sum (s : Series) : float := Np.sum (fillna0 (values s)).

(** [Series.mean()]: that sum over the number of entries that are present;
    [nan] when none is. *)
Definition mean (s : Series) : float :=
  let count := Z.of_nat (length (notna (values s))) in
  if 0 <? count then (sum s / F.of_Z count)%float else nan.

(** [Series.loc[label]] on an index without duplicate labels. *)
Fixpoint loc (s : Series) (t : Timestamp) : option float :=
  match s with
  | [] => None
  | (t', v) :: s' => if Timestamp_eqb t' t then Some v else loc s' t
  end.

(** [Index.intersection]: the labels of the left index that the right
    index also has, in the order of the left index. *)
Definition intersection (a b : list Timestamp) : list Timestamp :=
  filter (fun t => existsb (Timestamp_eqb t) b) a.

(** [obj.iloc[start:]] with Python's slice rule: a negative start counts
    from the end and is clipped at the beginning. *)
Definition iloc_from {A : Type} (start : Z) (l : list A) : list A :=
  let n := Z.of_nat (length l) in
  let k := if start <? 0 then Z.max (n + start) 0 else Z.min start n in
  skipn (Z.to_nat k) l.

End Pd.

(** A [pd.DataFrame] of daily prices.  The engine reads the [Close] column
    and the [return] column it adds itself; [df_has_return] tells whether
    that column exists yet (reading it earlier is a [KeyError]). *)
Record Row : Type := mkRow {
  row_idx : Timestamp;
  row_close : float;
  row_return : float
}.

Record DataFrame : Type := mkDataFrame {
  df_rows : list Row;
  df_has_return : bool
}.

(** ** Exceptions, the object and its monad *)

Inductive res (A : Type) : Type :=
| Ok (a : A)
| Raised (msg : string).
Arguments Ok {A} a.
Arguments Raised {A} msg.

Record EventStudy : Type := mkEventStudy {
  event_timestamp : Timestamp;
  ticker : string;
  estimation_window_days : Z;
  event_window_days : Z;
  market_ticker : string;
  rf_rate : float;
  stock_data : option DataFrame;
  market_data : option DataFrame;
  beta : option float;
  alpha : option float;
  ar : option float;
  car : option float;
  ar_series : option Series;
  p_value : option float;
  t_statistic : option float
}.

Definition set_stock_data (v : option DataFrame) (s : EventStudy) :=
  mkEventStudy (event_timestamp s) (ticker s) (estimation_window_days s)
    (event_window_days s) (market_ticker s) (rf_rate s) v (market_data s)
    (beta s) (alpha s) (ar s) (car s) (ar_series s) (p_value s)
    (t_statistic s).

Definition set_market_data (v : option DataFrame) (s : EventStudy) :=
  mkEventStudy (event_timestamp s) (ticker s) (estimation_window_days s)
    (event_window_days s) (market_ticker s) (rf_rate s) (stock_data s) v
    (beta s) (alpha s) (ar s) (car s) (ar_series s) (p_value s)
    (t_statistic s).

Definition set_alpha (v : option float) (s : EventStudy) :=
  mkEventStudy (event_timestamp s) (ticker s) (estimation_window_days s)
    (event_window_days s) (market_ticker s) (rf_rate s) (stock_data s)
    (market_data s) (beta s) v (ar s) (car s) (ar_series s)
    (p_value s) (t_statistic s).

Definition set_beta (v : option float) (s : EventStudy) :=
  mkEventStudy (event_timestamp s) (ticker s) (estimation_window_days s)
    (event_window_days s) (market_ticker s) (rf_rate s) (stock_data s)
    (market_data s) v (alpha s) (ar s) (car s) (ar_series s)
    (p_value s) (t_statistic s).

(** Both parameters set, as after the two assignments of
    [estimate_expected_return]. *)
Definition set_alpha_beta (a b : float) (s : EventStudy) :=
  mkEventStudy (event_timestamp s) (ticker s) (estimation_window_days s)
    (event_window_days s) (market_ticker s) (rf_rate s) (stock_data s)
    (market_data s) (Some b) (Some a) (ar s) (car s) (ar_series s)
    (p_value s) (t_statistic s).

Definition set_ar (v : option float) (s : EventStudy) :=
  mkEventStudy (event_timestamp s) (ticker s) (estimation_window_days s)
    (event_window_days s) (market_ticker s) (rf_rate s) (stock_data s)
    (market_data s) (beta s) (alpha s) v (car s) (ar_series s) (p_value s)
    (t_statistic s).

Definition set_car (v : option float) (s : EventStudy) :=
  mkEventStudy (event_timestamp s) (ticker s) (estimation_window_days s)
    (event_window_days s) (market_ticker s) (rf_rate s) (stock_data s)
    (market_data s) (beta s) (alpha s) (ar s) v (ar_series s) (p_value s)
    (t_statistic s).

Definition set_ar_series (v : option Series) (s : EventStudy) :=
  mkEventStudy (event_timestamp s) (ticker s) (estimation_window_days s)
    (event_window_days s) (market_ticker s) (rf_rate s) (stock_data s)
    (market_data s) (beta s) (alpha s) (ar s) (car s) v (p_value s)
    (t_statistic s).

Definition set_test (t p : float) (s : EventStudy) :=
  mkEventStudy (event_timestamp s) (ticker s) (estimation_window_days s)
    (event_window_days s) (market_ticker s) (rf_rate s) (stock_data s)
    (market_data s) (beta s) (alpha s) (ar s) (car s) (ar_series s)
    (Some p) (Some t).

(** A method of the object: it may change the object and may raise. *)
Definition M (A : Type) : Type := EventStudy -> res A * EventStudy.

Definition ret {A : Type} (a : A) : M A := fun self => (Ok a, self).

Definition bind {A B : Type} (m : M A) (k : A -> M B) : M B :=
  fun self =>
    match m self with
    | (Ok a, self') => k a self'
    | (Raised e, self') => (Raised e, self')
    end.

Definition raise {A : Type} (e : string) : M A :=
  fun self => (Raised e, self).

Definition get : M EventStudy := fun self => (Ok self, self).

Definition modify (f : EventStudy -> EventStudy) : M unit :=
  fun self => (Ok tt, f self).

Definition lift {A : Type} (r : res A) : M A := fun self => (r, self).

(** [try: body  except Exception as e: handler e] *)
Definition try_except {A : Type} (body : M A) (handler : string -> M A)
  : M A :=
  fun self =>
    match body self with
    | (Ok a, self') => (Ok a, self')
    | (Raised e, self') => handler e self'
    end.

Declare Scope method_scope.
Delimit Scope method_scope with method.
Notation "x <- c ;; k" := (bind c (fun x => k))
  (at level 61, c at next level, right associativity) : method_scope.
Notation "c ;;; k" := (bind c (fun _ => k))
  (at level 61, right associativity) : method_scope.
Open Scope method_scope.

(** ** datetime

    A [date] is its proleptic day ordinal, a [timedelta] of whole days its
    number of days.  Both types are bounded, and the arithmetic raises
    [OverflowError] beyond the bounds. *)

Module Datetime.

(** [date.min.toordinal()] and [date.max.toordinal()] *)
Definition MINORDINAL : Z := 1.
Definition MAXORDINAL : Z := 3652059.

(** The largest magnitude of [timedelta(days=...)]. *)
Definition MAX_DELTA_DAYS : Z := 999999999.

(** [timedelta(days=n)] *)
Definition timedelta (n : Z) : res Z :=
  if Z.abs n <=? MAX_DELTA_DAYS then Ok n
  else Raised "OverflowError: days; must have magnitude <= 999999999".

(** [d + delta] for a date [d] *)
Definition add (d delta : Z) : res Z :=
  if (MINORDINAL <=? d + delta) && (d + delta <=? MAXORDINAL)
  then Ok (d + delta)
  else Raised "OverflowError: date value out of range".

(** [d - timedelta(days=n)] and [d + timedelta(days=n)] *)
Definition minus_days (d n : Z) : res Z :=
  match timedelta n with
  | Ok delta => add d (- delta)
  | Raised e => Raised e
  end.

Definition plus_days (d n : Z) : res Z :=
  match timedelta n with
  | Ok delta => add d delta
  | Raised e => Raised e
  end.

End Datetime.

(** ** config *)

Module config.
Definition RISK_FREE_RATE : float := 0.04%float.
Definition SIGNIFICANCE_LEVEL : float := 0.05%float.
Definition ESTIMATION_WINDOW_DAYS : Z := 252.
End config.

(** ** The libraries the engine calls *)

Class Libs : Type := {
  (** [yf.Ticker(t).history(start=, end=)]: the rows (label, close) in
      index order, or an exception. *)
  yf_history : string -> Z -> Z -> res (list (Timestamp * float));
  (** [sm.OLS(y, sm.add_constant(x), missing='drop').fit().params]: the
      array of fitted parameters, or an exception.  ([add_constant] adds
      no column to a regressor that is already a non-zero constant, as
      a single observation is: the array then has one entry.) *)
  sm_ols_fit : list float -> list float -> res (list float);
  (** The Student-t distribution function at [x] for [df > 0] degrees of
      freedom, as [scipy.special] evaluates it. *)
  student_t_cdf : float -> Z -> float;
  (** [scipy.stats.ttest_1samp(a, popmean)]: statistic and p-value. *)
  ttest_1samp : list float -> float -> float * float;
  (** [round(x, ndigits)] *)
  py_round : float -> Z -> float;
  (** [format(x, '.<d>f')] *)
  format_fixed : nat -> float -> string;
  (** [datetime.isoformat()] and [date.isoformat()] *)
  isoformat : Timestamp -> string;
  date_isoformat : Z -> string
}.

(** [params[i]] *)
Definition param (params : list float) (i : nat) : res float :=
  match nth_error params i with
  | Some v => Ok v
  | None => Raised "IndexError: index is out of bounds for axis 0"
  end.

(** The intercept and the slope of a fit, [params[0]] and [params[1]]. *)
Definition sm_ols_params `{Libs} (y x : list float) : res (float * float) :=
  match sm_ols_fit y x with
  | Ok params =>
      match param params 0, param params 1 with
      | Ok a, Ok b => Ok (a, b)
      | Raised e, _ => Raised e
      | _, Raised e => Raised e
      end
  | Raised e => Raised e
  end.

Module Scipy.

(** [scipy.stats.t.cdf(x, df)].  A distribution method of scipy answers
    [nan] where the shape argument fails the distribution's check
    ([df > 0] for Student's t) and where [x] is [nan]; elsewhere it is the
    distribution function. *)
Definition t_cdf `{Libs} (x : float) (df : Z) : float :=
  if (df <=? 0) || PrimFloat.is_nan x then nan else student_t_cdf x df.

End Scipy.

(** ** Python strings *)

Module Str.

Definition upper_ascii (c : ascii) : ascii :=
  let n := nat_of_ascii c in
  if ((97 <=? n) && (n <=? 122))%nat then ascii_of_nat (n - 32) else c.

Definition lower_ascii (c : ascii) : ascii :=
  let n := nat_of_ascii c in
  if ((65 <=? n) && (n <=? 90))%nat then ascii_of_nat (n + 32) else c.

Fixpoint lower (s : string) : string :=
  match s with
  | EmptyString => EmptyString
  | String c s' => String (lower_ascii c) (lower s')
  end.

(** [str.capitalize()] on ASCII text. *)
Definition capitalize (s : string) : string :=
  match s with
  | EmptyString => EmptyString
  | String c s' => String (upper_ascii c) (lower s')
  end.

End Str.

(** ** Result records *)

(** The dictionary [statistical_test] returns. *)
Record TestResult : Type := mkTestResult {
  tr_t_statistic : float;
  tr_p_value : float;
  tr_is_significant : bool;
  tr_confidence : float;
  tr_method : option string
}.

(** The error dictionary of [run_full_analysis]. *)
Record ErrorDict : Type := mkErrorDict {
  e_ticker : string;
  e_event_timestamp : string;
  e_error : string;
  e_ar : float;
  e_car : float;
  e_confidence : float;
  e_is_significant : bool
}.

(** The dictionary of a completed analysis. *)
Record ResultDict : Type := mkResultDict {
  r_ticker : string;
  r_event_timestamp : string;
  r_event_date : string;
  r_alpha : float;
  r_beta : float;
  r_ar : float;
  r_ar_percentage : float;
  r_car : float;
  r_car_percentage : float;
  r_t_statistic : float;
  r_p_value : float;
  r_is_significant : bool;
  r_confidence : float;
  r_is_outlier : bool;
  r_num_observations : Z;
  r_estimation_window_days : Z;
  r_direction : string;
  r_summary : string
}.

Inductive Dict : Type :=
| ErrorResult (e : ErrorDict)
| FullResult (r : ResultDict).

(** ** Data frames *)

Module Frame.

Definition index (rows : list Row) : list Timestamp := map row_idx rows.

(** The frame [history] hands back: no [return] column yet. *)
Definition raw (rows : list (Timestamp * float)) : DataFrame :=
  mkDataFrame (map (fun tc => mkRow (fst tc) (snd tc) nan) rows) false.

(** [df['return'] = df['Close'].pct_change()]: [close / previous - 1],
    and [nan] on the first row. *)
Fixpoint pct_change_from (prev : option float) (rows : list Row)
  : list Row :=
  match rows with
  | [] => []
  | r :: rest =>
      let v := match prev with
               | None => nan
               | Some p => (row_close r / p - 1)%float
               end in
      mkRow (row_idx r) (row_close r) v
        :: pct_change_from (Some (row_close r)) rest
  end.

Definition with_returns (df : DataFrame) : DataFrame :=
  mkDataFrame (pct_change_from None (df_rows df)) true.

Fixpoint find_row (rows : list Row) (t : Timestamp) : option Row :=
  match rows with
  | [] => None
  | r :: rest =>
      if Timestamp_eqb (row_idx r) t then Some r else find_row rest t
  end.

(** [df.loc[labels]] on an index without duplicate labels; a label the
    index lacks is a [KeyError]. *)
Fixpoint loc_rows (rows : list Row) (labels : list Timestamp)
  : res (list Row) :=
  match labels with
  | [] => Ok []
  | t :: rest =>
      match find_row rows t with
      | None => Raised "KeyError"
      | Some r =>
          match loc_rows rows rest with
          | Ok rs => Ok (r :: rs)
          | Raised e => Raised e
          end
      end
  end.

Definition loc (df : DataFrame) (labels : list Timestamp) : res DataFrame :=
  match loc_rows (df_rows df) labels with
  | Ok rs => Ok (mkDataFrame rs (df_has_return df))
  | Raised e => Raised e
  end.

(** [df.loc[labels, 'return']] *)
Definition loc_return (df : DataFrame) (labels : list Timestamp)
  : res Series :=
  if df_has_return df then
    match loc_rows (df_rows df) labels with
    | Ok rs => Ok (map (fun r => (row_idx r, row_return r)) rs)
    | Raised e => Raised e
    end
  else Raised "KeyError: 'return'".

(** [df.dropna(subset=['return'])] *)
Definition dropna_return (df : DataFrame) : res DataFrame :=
  if df_has_return df then
    Ok (mkDataFrame
          (filter (fun r => negb (PrimFloat.is_nan (row_return r)))
                  (df_rows df))
          true)
  else Raised "KeyError: ['return']".

(** [df[mask]] for a mask computed from the dates of the index. *)
Definition where_date (p : Z -> bool) (df : DataFrame) : DataFrame :=
  mkDataFrame (filter (fun r => p (date_of (row_idx r))) (df_rows df))
              (df_has_return df).

Definition iloc_from (start : Z) (df : DataFrame) : DataFrame :=
  mkDataFrame (Pd.iloc_from start (df_rows df)) (df_has_return df).

Definition len (df : DataFrame) : Z := Z.of_nat (length (df_rows df)).

Definition empty (df : DataFrame) : bool := len df =? 0.

End Frame.

(** [a - b] on two series: entries are paired by label. *)
Definition Series_sub (a b : Series) : Series :=
  map (fun tv =>
         (fst tv,
          match Pd.loc b (fst tv) with
          | Some w => (snd tv - w)%float
          | None => nan
          end)) a.

(** [c + k * s] for scalars [c], [k] and a series [s]. *)
Definition Series_affine (c k : float) (s : Series) : Series :=
  map (fun tv => (fst tv, (c + k * snd tv)%float)) s.

(** ** The [EventStudy] class *)

Section EventStudyClass.

Context `{L : Libs}.

Definition EventStudy_init (event_timestamp : Timestamp) (ticker : string)
           (estimation_window_days event_window_days : Z)
           (market_ticker : string) : EventStudy :=
  mkEventStudy event_timestamp ticker estimation_window_days
    event_window_days market_ticker config.RISK_FREE_RATE
    None None None None None None None None None.

(** The two ends of the range reach the provider as day numbers: whatever
    raises inside the [try] block, the provider or the arithmetic on dates
    before it, is the provider's [Raised] here. *)
Definition fetch_data : M bool :=
  try_except
    (self <- get ;;
     let event_date := date_of (event_timestamp self) in
     let estimation_start :=
       event_date - (estimation_window_days self + 20) in
     let event_window_end := event_date + (event_window_days self + 5) in
     stock <- lift (yf_history (ticker self) estimation_start
                               event_window_end) ;;
     modify (set_stock_data (Some (Frame.raw stock))) ;;;
     if Frame.empty (Frame.raw stock) then ret false
     else
       market <- lift (yf_history (market_ticker self) estimation_start
                                  event_window_end) ;;
       modify (set_market_data (Some (Frame.raw market))) ;;;
       if Frame.empty (Frame.raw market) then ret false
       else
         let stock1 := Frame.with_returns (Frame.raw stock) in
         let market1 := Frame.with_returns (Frame.raw market) in
         modify (set_stock_data (Some stock1)) ;;;
         modify (set_market_data (Some market1)) ;;;
         let common_dates :=
           Pd.intersection (Frame.index (df_rows stock1))
                           (Frame.index (df_rows market1)) in
         stock2 <- lift (Frame.loc stock1 common_dates) ;;
         modify (set_stock_data (Some stock2)) ;;;
         market2 <- lift (Frame.loc market1 common_dates) ;;
         modify (set_market_data (Some market2)) ;;;
         stock3 <- lift (Frame.dropna_return stock2) ;;
         modify (set_stock_data (Some stock3)) ;;;
         market3 <- lift (Frame.dropna_return market2) ;;
         modify (set_market_data (Some market3)) ;;;
         ret (50 <=? Frame.len stock3))
    (fun _ => ret false).

(** Lines 144-163 of [estimate_expected_return]: the two return series
    the regression is fitted on (instrument, market). *)
Definition estimation_sample : M (Series * Series) :=
  self <- get ;;
  match stock_data self, market_data self with
  | Some stock, Some market =>
      let event_date := date_of (event_timestamp self) in
      estimation_end <- lift (Datetime.minus_days event_date
                                                  (event_window_days self)) ;;
      let estimation_stock :=
        Frame.where_date (fun d => d <? estimation_end) stock in
      let estimation_market :=
        Frame.where_date (fun d => d <? estimation_end) market in
      let n := estimation_window_days self in
      let '(estimation_stock, estimation_market) :=
        if Frame.len estimation_stock >? n
        then (Frame.iloc_from (- n) estimation_stock,
              Frame.iloc_from (- n) estimation_market)
        else (estimation_stock, estimation_market) in
      let common_dates :=
        Pd.intersection (Frame.index (df_rows estimation_stock))
                        (Frame.index (df_rows estimation_market)) in
      stock_returns <- lift (Frame.loc_return estimation_stock
                                              common_dates) ;;
      market_returns <- lift (Frame.loc_return estimation_market
                                               common_dates) ;;
      ret (stock_returns, market_returns)
  | _, _ => raise "Data not fetched. Call fetch_data() first."
  end.

Definition estimate_expected_return : M (float * float) :=
  sample <- estimation_sample ;;
  let X := Pd.values (snd sample) in
  let y := Pd.values (fst sample) in
  params <- lift (sm_ols_fit y X) ;;
  a <- lift (param params 0) ;;
  modify (set_alpha (Some a)) ;;;
  b <- lift (param params 1) ;;
  modify (set_beta (Some b)) ;;;
  ret (a, b).

(** The loop of lines 224-228: the value at the first label whose date is
    on or after the event date. *)
Fixpoint first_on_or_after (event_date : Z) (labels : list Timestamp)
         (s : Series) : option float :=
  match labels with
  | [] => None
  | t :: rest =>
      if date_of t >=? event_date then Pd.loc s t
      else first_on_or_after event_date rest s
  end.

Definition calculate_ar : M Series :=
  self <- get ;;
  match alpha self, beta self with
  | Some _, Some _ => ret tt
  | _, _ => estimate_expected_return ;;; ret tt
  end ;;;
  self <- get ;;
  let event_date := date_of (event_timestamp self) in
  window_start <- lift (Datetime.minus_days event_date
                                            (event_window_days self)) ;;
  window_end <- lift (Datetime.plus_days event_date
                                         (event_window_days self)) ;;
  match stock_data self, market_data self with
  | Some stock, Some market =>
      let in_window := fun d => (d >=? window_start) && (d <=? window_end) in
      let event_stock := Frame.where_date in_window stock in
      let event_market := Frame.where_date in_window market in
      let common_dates :=
        Pd.intersection (Frame.index (df_rows event_stock))
                        (Frame.index (df_rows event_market)) in
      if Z.of_nat (length common_dates) =? 0 then ret []
      else
        stock_returns <- lift (Frame.loc_return event_stock common_dates) ;;
        market_returns <- lift (Frame.loc_return event_market
                                                 common_dates) ;;
        match alpha self, beta self with
        | Some a, Some b =>
            let expected_returns := Series_affine a b market_returns in
            let abnormal_returns :=
              Series_sub stock_returns expected_returns in
            modify (set_ar_series (Some abnormal_returns)) ;;;
            let event_day_ar :=
              first_on_or_after event_date (Pd.index abnormal_returns)
                                abnormal_returns in
            modify (set_ar (Some match event_day_ar with
                                 | Some v => v
                                 | None => Pd.mean abnormal_returns
                                 end)) ;;;
            ret abnormal_returns
        | _, _ => raise "TypeError: unsupported operand type(s)"
        end
  | _, _ => raise "AttributeError: 'NoneType' object has no attribute 'index'"
  end.

Definition calculate_car (window : option (Z * Z)) : M float :=
  self <- get ;;
  match ar_series self with
  | None => calculate_ar ;;; ret tt
  | Some _ => ret tt
  end ;;;
  self <- get ;;
  car <-
    match window with
    | Some (days_before, days_after) =>
        let event_date := date_of (event_timestamp self) in
        window_start <- lift (Datetime.minus_days event_date days_before) ;;
        window_end <- lift (Datetime.plus_days event_date days_after) ;;
        match ar_series self with
        | None =>
            raise "AttributeError: 'NoneType' object has no attribute 'index'"
        | Some series =>
            let filtered_ar :=
              filter (fun tv => (date_of (fst tv) >=? window_start)
                                && (date_of (fst tv) <=? window_end))
                     series in
            ret (Pd.sum filtered_ar)
        end
    | None =>
        match ar_series self with
        | None =>
            raise "AttributeError: 'NoneType' object has no attribute 'sum'"
        | Some series => ret (Pd.sum series)
        end
    end ;;
  modify (set_car (Some car)) ;;;
  ret car.

Definition statistical_test (use_robust : bool) (self : EventStudy)
  : TestResult * EventStudy :=
  let no_data :=
    (mkTestResult 0 1 false 0 None, self) in
  match ar_series self with
  | None => no_data
  | Some series =>
      if Z.of_nat (length series) =? 0 then no_data
      else
        let ar_values := Pd.values series in
        let n := Z.of_nat (length ar_values) in
        if use_robust then
          let median_ar := Np.median ar_values in
          let mad := Np.median (Np.abs_dev ar_values median_ar) in
          let t_stat :=
            if (0 <? mad)%float then
              let robust_std := (1.4826 * mad)%float in
              (median_ar / (robust_std / Np.sqrt_int n))%float
            else 0%float in
          let df := n - 1 in
          let p_val :=
            (2 * (1 - Scipy.t_cdf (PrimFloat.abs t_stat) df))%float in
          let is_significant :=
            (p_val <? config.SIGNIFICANCE_LEVEL)%float in
          let confidence :=
            if (p_val <? 1)%float then (1 - p_val)%float else 0%float in
          (mkTestResult t_stat p_val is_significant
                        (F.py_min confidence 0.99) (Some "robust"%string),
           set_test t_stat p_val self)
        else
          let t_stat := fst (ttest_1samp ar_values 0) in
          let p_val := snd (ttest_1samp ar_values 0) in
          let is_significant :=
            (p_val <? config.SIGNIFICANCE_LEVEL)%float in
          let confidence :=
            if (p_val <? 1)%float then (1 - p_val)%float else 0%float in
          (mkTestResult t_stat p_val is_significant
                        (F.py_min confidence 0.99) None,
           set_test t_stat p_val self)
  end.

Definition filter_outliers (threshold : float) (self : EventStudy) : bool :=
  match ar_series self with
  | None => false
  | Some series =>
      if Z.of_nat (length series) <? 3 then false
      else
        let ar_values := Pd.values series in
        let median_ar := Np.median ar_values in
        let mad := Np.median (Np.abs_dev ar_values median_ar) in
        if (mad =? 0)%float then false
        else
          match ar self with
          | None => false
          | Some event_ar =>
              let deviation := PrimFloat.abs (event_ar - median_ar) in
              (threshold * mad <? deviation)%float
          end
  end.

Definition _generate_summary (self : EventStudy) : string :=
  match ar self with
  | None => "Insufficient data for analysis"
  | Some event_ar =>
      let direction :=
        if (0 <? event_ar)%float then "positive" else "negative" in
      let magnitude := PrimFloat.abs (event_ar * 100) in
      let summary :=
        Str.capitalize direction ++ " abnormal return of "
          ++ format_fixed 2 magnitude ++ "%. " in
      let summary :=
        match p_value self with
        | Some p =>
            if (p <? config.SIGNIFICANCE_LEVEL)%float
            then summary ++ "Statistically significant (p="
                         ++ format_fixed 4 p ++ "). "
            else summary ++ "Not statistically significant. "
        | None => summary ++ "Not statistically significant. "
        end in
      if filter_outliers 3 self
      then summary ++ "⚠️ Flagged as potential outlier."
      else summary
  end%string.

Definition error_dict (self : EventStudy) (msg : string) : Dict :=
  ErrorResult
    (mkErrorDict (ticker self) (isoformat (event_timestamp self)) msg
                 0 0 0 false).

(** The body of the [try] block of [run_full_analysis]. *)
Definition analysis_steps : M Dict :=
  params <- estimate_expected_return ;;
  let alpha := fst params in
  let beta := snd params in
  ar_series <- calculate_ar ;;
  if Z.of_nat (length ar_series) =? 0 then
    self <- get ;;
    ret (error_dict self "No data in event window")
  else
    car <- calculate_car None ;;
    test_results <- (fun self => let (t, self') := statistical_test true self
                                 in (Ok t, self')) ;;
    self <- get ;;
    let is_outlier := filter_outliers 3 self in
    match ar self with
    | None => raise "TypeError: NoneType doesn't define __round__"
    | Some event_ar =>
        ret (FullResult
               (mkResultDict
                  (ticker self)
                  (isoformat (event_timestamp self))
                  (date_isoformat (date_of (event_timestamp self)))
                  (py_round alpha 6)
                  (py_round beta 4)
                  (py_round event_ar 6)
                  (py_round (event_ar * 100) 4)
                  (py_round car 6)
                  (py_round (car * 100) 4)
                  (tr_t_statistic test_results)
                  (tr_p_value test_results)
                  (tr_is_significant test_results)
                  (py_round (tr_confidence test_results) 3)
                  is_outlier
                  (Z.of_nat (length ar_series))
                  (estimation_window_days self)
                  (if (0 <? event_ar)%float then "positive"
                   else if (event_ar <? 0)%float then "negative"
                        else "neutral")
                  (_generate_summary self)))
    end.

Definition run_full_analysis : M Dict :=
  fetched <- fetch_data ;;
  if negb fetched then
    self <- get ;;
    ret (error_dict self "Failed to fetch data")
  else
    try_except analysis_steps
      (fun e => self <- get ;;
                ret (error_dict self ("Analysis failed: " ++ e))).

End EventStudyClass.

(** ** Notions the statements use *)

(** The Median Absolute Deviation: the median of the absolute deviations
    from the median. *)
Definition MAD (l : list float) : float :=
  Np.median (map (fun x => PrimFloat.abs (x - Np.median l)%float) l).

(** The observations held by the object (none before [calculate_ar]). *)
Definition observations (self : EventStudy) : Series :=
  match ar_series self with
  | Some s => s
  | None => []
  end.

(** No value is missing. *)
Definition none_missing (l : list float) : Prop :=
  forallb (fun x => negb (PrimFloat.is_nan x)) l = true.

(** The arithmetic mean of all values: their sum over their number. *)
Definition arithmetic_mean (l : list float) : float :=
  (Np.sum l / F.of_Z (Z.of_nat (length l)))%float.

(** The day offsets a [timedelta] holds and the day ordinals a [date]
    holds. *)
Definition valid_offset (n : Z) : Prop := Z.abs n <= 999999999.
Definition valid_date (d : Z) : Prop := 1 <= d <= 3652059.

(** The last [n] elements of a list. *)
Definition lastn {A : Type} (n : nat) (l : list A) : list A :=
  skipn (length l - n) l.

(** The first entry of a series whose date is on or after [event_date]. *)
Definition first_entry_on_or_after (event_date : Z) (s : Series)
  : option (Timestamp * float) :=
  find (fun tv => event_date <=? date_of (fst tv)) s.

(** The entries of a series whose dates lie in [[lo, hi]]. *)
Definition entries_between (lo hi : Z) (s : Series) : Series :=
  filter (fun tv => (lo <=? date_of (fst tv)) && (date_of (fst tv) <=? hi)) s.

(** A value is carried with [k] decimal places when rounding it to [k]
    places gives it back. *)
Definition rounded_to `{Libs} (k : Z) (x : float) : Prop := py_round x k = x.

(** [s] starts with [p]. *)
Fixpoint starts_with (p s : string) : bool :=
  match p, s with
  | EmptyString, _ => true
  | String a p', String b s' => Ascii.eqb a b && starts_with p' s'
  | String _ _, EmptyString => false
  end.

(** The confidence a p-value is turned into (lines 308 and 314, 325 and
    331). *)
Definition confidence_of (p : float) : float :=
  if (p <? 1)%float then F.py_min (1 - p)%float 0.99%float else 0%float.

(** The rows of the instrument dated strictly before the event window. *)
Definition rows_before_window (self : EventStudy) (df : DataFrame)
  : list Row :=
  filter (fun r => date_of (row_idx r)
                   <? date_of (event_timestamp self) - event_window_days self)
         (df_rows df).

(** A stage of [run_full_analysis] fails: the fetch reports failure, a
    later stage raises, or the event window holds no common trading day. *)
Inductive stage_failure `{Libs} (self : EventStudy) : Prop :=
| fetch_failed (s1 : EventStudy) :
    fetch_data self = (Ok false, s1) -> stage_failure self
| estimation_raised (s1 s2 : EventStudy) (e : string) :
    fetch_data self = (Ok true, s1) ->
    estimate_expected_return s1 = (Raised e, s2) -> stage_failure self
| abnormal_returns_raised (s1 s2 s3 : EventStudy) (p : float * float)
                          (e : string) :
    fetch_data self = (Ok true, s1) ->
    estimate_expected_return s1 = (Ok p, s2) ->
    calculate_ar s2 = (Raised e, s3) -> stage_failure self
| empty_event_window (s1 s2 s3 : EventStudy) (p : float * float) :
    fetch_data self = (Ok true, s1) ->
    estimate_expected_return s1 = (Ok p, s2) ->
    calculate_ar s2 = (Ok [], s3) -> stage_failure self
| cumulative_raised (s1 s2 s3 s4 : EventStudy) (p : float * float)
                    (series : Series) (e : string) :
    fetch_data self = (Ok true, s1) ->
    estimate_expected_return s1 = (Ok p, s2) ->
    calculate_ar s2 = (Ok series, s3) ->
    calculate_car None s3 = (Raised e, s4) -> stage_failure self
| assembly_raised (s1 s2 s3 s4 : EventStudy) (p : float * float)
                  (series : Series) (c : float) :
    fetch_data self = (Ok true, s1) ->
    estimate_expected_return s1 = (Ok p, s2) ->
    calculate_ar s2 = (Ok series, s3) ->
    calculate_car None s3 = (Ok c, s4) ->
    ar (snd (statistical_test true s4)) = None -> stage_failure self.

(** The error dictionary carries a reason and zeroed fields. *)
Definition is_error_result (d : Dict) : Prop :=
  match d with
  | ErrorResult e =>
      e_error e <> ""%string /\ e_ar e = 0%float /\ e_car e = 0%float
      /\ e_confidence e = 0%float /\ e_is_significant e = false
  | FullResult _ => False
  end.

(** The dictionary of lines 413-444, from the values of the stages and the
    object as it stands after them. *)
Definition full_result `{Libs} (self : EventStudy) (alpha beta car : float)
           (event_ar : float) (test_results : TestResult) (n : Z)
  : ResultDict :=
  mkResultDict
    (ticker self)
    (isoformat (event_timestamp self))
    (date_isoformat (date_of (event_timestamp self)))
    (py_round alpha 6)
    (py_round beta 4)
    (py_round event_ar 6)
    (py_round (event_ar * 100) 4)
    (py_round car 6)
    (py_round (car * 100) 4)
    (tr_t_statistic test_results)
    (tr_p_value test_results)
    (tr_is_significant test_results)
    (py_round (tr_confidence test_results) 3)
    (filter_outliers 3 self)
    n
    (estimation_window_days self)
    (if (0 <? event_ar)%float then "positive"
     else if (event_ar <? 0)%float then "negative" else "neutral")
    (_generate_summary self).

(** [quick_event_study]: a study with the default windows and market index
    is run, and a non-empty [event_text] is attached, cut to its first 200
    characters (a string holds one element per character). *)
Definition quick_event_study `{Libs} (ticker : string)
           (event_timestamp : Timestamp) (event_text : string)
  : res (Dict * option string) :=
  let study := EventStudy_init event_timestamp ticker 252 3 "SPY" in
  match run_full_analysis study with
  | (Ok results, _) =>
      Ok (results,
          match event_text with
          | EmptyString => None
          | _ => Some (substring 0 200 event_text)
          end)
  | (Raised e, _) => Raised e
  end.

(** The constructor arguments of the object, which say what is studied. *)
Definition same_config (a b : EventStudy) : Prop :=
  event_timestamp a = event_timestamp b /\ ticker a = ticker b
  /\ estimation_window_days a = estimation_window_days b
  /\ event_window_days a = event_window_days b
  /\ market_ticker a = market_ticker b /\ rf_rate a = rf_rate b.

(** The first and last date of the event window. *)
Definition window_start (self : EventStudy) : Z :=
  date_of (event_timestamp self) - event_window_days self.

Definition window_end (self : EventStudy) : Z :=
  date_of (event_timestamp self) + event_window_days self.

(** What a successful [fetch_data] leaves in a frame: the [return] column,
    no missing return, and only labels that both providers' frames have. *)
Definition aligned_frame (df : DataFrame)
           (stock market : list (Timestamp * float)) : Prop :=
  df_has_return df = true
  /\ forall r, In r (df_rows df) ->
       PrimFloat.is_nan (row_return r) = false
       /\ In (row_idx r) (map fst stock) /\ In (row_idx r) (map fst market).

(** The first sentence of the summary for an event-day value. *)
Definition summary_opening_of `{Libs} (event_ar : float) : string :=
  (Str.capitalize (if (0 <? event_ar)%float then "positive" else "negative")
   ++ " abnormal return of "
   ++ format_fixed 2 (PrimFloat.abs (event_ar * 100)) ++ "%. ")%string.

(** A method keeps the constructor arguments, whatever its outcome. *)
Definition keeps_config {A : Type} (m : M A) : Prop :=
  forall self, same_config self (snd (m self)).

(** The sentence of the summary on significance, and its closing flag. *)
Definition significance_sentence `{Libs} (significant : bool) (p : float)
  : string :=
  if significant
  then ("Statistically significant (p=" ++ format_fixed 4 p ++ "). ")%string
  else "Not statistically significant. "%string.

Definition outlier_suffix (flagged : bool) : string :=
  if flagged then "⚠️ Flagged as potential outlier."%string
  else EmptyString.

(** ** A reference instance of the libraries

    Executable stand-ins used by the worked examples: the closed forms the
    libraries approximate, a decimal rounding on the exact binary value and
    a synthetic price provider. *)

Module Ref.

(** Student's t with two degrees of freedom:
    [F(x) = 1/2 + x / (2 sqrt (2 + x^2))]. *)
Definition t2_cdf (x : float) : float :=
  (0.5 + x / (2 * PrimFloat.sqrt (2 + x * x)))%float.

(** A plain running sum, for the closed forms below. *)
Definition fsum (l : list float) : float :=
  fold_left PrimFloat.add l 0%float.

Definition fmean (l : list float) : float :=
  (fsum l / F.of_Z (Z.of_nat (length l)))%float.

(** Least squares of [y] on [x] with an intercept. *)
Definition ols (y x : list float) : res (float * float) :=
  match x with
  | [] => Raised "zero-size array to reduction operation"
  | _ =>
      let xb := fmean x in
      let yb := fmean y in
      let sxx := fsum (map (fun a => ((a - xb) * (a - xb))%float) x) in
      let sxy :=
        fsum (map (fun ab => ((fst ab - xb) * (snd ab - yb))%float)
                     (combine x y)) in
      let b := (sxy / sxx)%float in
      Ok ((yb - b * xb)%float, b)
  end.

(** The parameters of the fit: intercept and slope, or the slope alone
    through the origin when the regressor is a non-zero constant. *)
Definition fit (y x : list float) : res (list float) :=
  match x with
  | [] => Raised "zero-size array to reduction operation"
  | x0 :: _ =>
      if forallb (fun a => (a =? x0)%float) x && negb (x0 =? 0)%float
      then
        Ok [(fsum (map (fun ab => (fst ab * snd ab)%float) (combine x y))
             / fsum (map (fun a => (a * a)%float) x))%float]
      else
        match ols y x with
        | Ok (a, b) => Ok [a; b]
        | Raised e => Raised e
        end
  end.

(** One-sample t statistic and the two-sided p-value (three
    observations). *)
Definition ttest (a : list float) (popmean : float) : float * float :=
  let n := F.of_Z (Z.of_nat (length a)) in
  let m := fmean a in
  let var :=
    (fsum (map (fun v => ((v - m) * (v - m))%float) a) / (n - 1))%float in
  let t := ((m - popmean) / PrimFloat.sqrt (var / n))%float in
  (t, (2 * (1 - t2_cdf (PrimFloat.abs t)))%float).

(** The integer nearest to [m * 2^e * 10^k], ties to even. *)
Definition scaled (m : positive) (e : Z) (k : Z) : Z :=
  let num := Zpos m * 10 ^ k in
  if 0 <=? e then num * 2 ^ e
  else
    let den := 2 ^ (- e) in
    let q := num / den in
    let r := num mod den in
    match 2 * r ?= den with
    | Lt => q
    | Gt => q + 1
    | Eq => if Z.even q then q else q + 1
    end.

(** [round(x, k)] for [0 <= k]. *)
Definition round (x : float) (k : Z) : float :=
  match Prim2SF x with
  | S754_finite s m e =>
      if 0 <=? e then x
      else
        let v := (F.of_Z (scaled m e k) / F.of_Z (10 ^ k))%float in
        if s then (- v)%float else v
  | _ => x
  end.

Definition digits (n : Z) : string :=
  DecimalString.NilZero.string_of_uint (N.to_uint (Z.to_N n)).

(** [n] written with at least [w] digits. *)
Definition padded (w : nat) (n : Z) : string :=
  let s := digits n in
  (String.concat "" (repeat "0" (w - String.length s)) ++ s)%string.

(** [format(x, '.<d>f')] *)
Definition fixed (d : nat) (x : float) : string :=
  match Prim2SF x with
  | S754_nan => "nan"
  | S754_infinity s => if s then "-inf" else "inf"
  | S754_zero s =>
      ((if s then "-" else "") ++ "0"
         ++ (if (d =? 0)%nat then "" else ".") ++ padded d 0)%string
  | S754_finite s m e =>
      let q := scaled m e (Z.of_nat d) in
      let p := 10 ^ Z.of_nat d in
      ((if s then "-" else "") ++ digits (q / p)
         ++ (if (d =? 0)%nat then "" else "." ++ padded d (q mod p)))%string
  end.

(** Year, month and day of a proleptic Gregorian day ordinal. *)
Definition civil (ordinal : Z) : Z * Z * Z :=
  let z := ordinal + 305 in
  let era := z / 146097 in
  let doe := z - era * 146097 in
  let yoe := (doe - doe / 1460 + doe / 36524 - doe / 146096) / 365 in
  let doy := doe - (365 * yoe + yoe / 4 - yoe / 100) in
  let mp := (5 * doy + 2) / 153 in
  let d := doy - (153 * mp + 2) / 5 + 1 in
  let m := if mp <? 10 then mp + 3 else mp - 9 in
  let y := yoe + era * 400 + (if m <=? 2 then 1 else 0) in
  (y, m, d).

Definition date_iso (ordinal : Z) : string :=
  let '(y, m, d) := civil ordinal in
  (padded 4 y ++ "-" ++ padded 2 m ++ "-" ++ padded 2 d)%string.

Definition iso (t : Timestamp) : string :=
  let secs := ts_nanos t / 1000000000 in
  (date_iso (ts_day t) ++ "T" ++ padded 2 (secs / 3600) ++ ":"
     ++ padded 2 (secs / 60 mod 60) ++ ":" ++ padded 2 (secs mod 60))%string.

(** A synthetic provider: a close for every weekday in [[start, stop)],
    and an empty frame for a symbol it does not know. *)
Definition close_of (base : Z) (k : Z) (day : Z) : float :=
  (F.of_Z base + F.of_Z ((day * k) mod 11) / 10)%float.

Definition weekdays (start stop : Z) : list Z :=
  filter (fun d => (d - 1) mod 7 <? 5)
         (map (fun i => start + Z.of_nat i) (seq 0 (Z.to_nat (stop - start)))).

Definition history (symbol : string) (start stop : Z)
  : res (list (Timestamp * float)) :=
  if String.eqb symbol "TEST" then
    Ok (map (fun d => (mkTimestamp d 0, close_of 100 37 d))
            (weekdays start stop))
  else if String.eqb symbol "SPY" then
    Ok (map (fun d => (mkTimestamp d 0, close_of 300 17 d))
            (weekdays start stop))
  else if String.eqb symbol "DOWN" then
    Raised "ConnectionError"
  else Ok [].

#[export] Instance libs : Libs := {
  yf_history := history;
  sm_ols_fit := fit;
  student_t_cdf := fun x _ => t2_cdf x;
  ttest_1samp := ttest;
  py_round := round;
  format_fixed := fixed;
  isoformat := iso;
  date_isoformat := date_iso
}.

(** 2019-10-02, a Wednesday. *)
Definition wednesday : Z := 737334.

(** The study of the worked examples: event on that Wednesday at 14:00,
    one day either side, so three observations. *)
Definition study : EventStudy :=
  EventStudy_init (mkTimestamp wednesday 50400000000000) "TEST" 252 1 "SPY".

(** An object holding the abnormal returns [values] on consecutive days
    starting on [first_day]; [event_ar] is the stored event-day value. *)
Definition holding (event_day first_day : Z) (values : list float)
           (event_ar : option float) : EventStudy :=
  set_ar event_ar
    (set_ar_series
       (Some (combine (map (fun i => mkTimestamp (first_day + Z.of_nat i) 0)
                           (seq 0 (length values)))
                      values))
       (EventStudy_init (mkTimestamp event_day 0) "TEST" 252 3 "SPY")).

(** An object with two fetched rows per frame, dated ten and nine days
    before the event, and an estimation window of [n] days. *)
Definition two_rows (n : Z) : EventStudy :=
  let frame c1 r1 c2 r2 :=
    mkDataFrame [mkRow (mkTimestamp (wednesday - 10) 0) c1 r1;
                 mkRow (mkTimestamp (wednesday - 9) 0) c2 r2] true in
  set_market_data (Some (frame 300 0.008 298.8 (-0.004))%float)
    (set_stock_data (Some (frame 100 0.01 99.5 (-0.005))%float)
       (EventStudy_init (mkTimestamp wednesday 0) "TEST" n 3 "SPY")).

(** The series of the test suite, on consecutive days around an event on
    2019-10-01 (ordinal 737333). *)
Definition seven_days (values : list float) (event_ar : float)
  : EventStudy :=
  holding 737333 737327 values (Some event_ar).

Definition test_car_values : list float :=
  [0.01; -0.005; 0.02; -0.01; 0.015; 0.03; -0.02; 0.01; 0.005;
   -0.005]%float.

Definition test_outlier_values : list float :=
  [0.001; -0.002; 0.0015; 0.15; -0.001; 0.002; -0.0015]%float.

Definition test_normal_values : list float :=
  [0.001; -0.002; 0.0015; 0.002; -0.001; 0.002; -0.0015]%float.

Definition test_positive_values : list float :=
  [0.02; 0.025; 0.03; 0.028; 0.022; 0.026; 0.024]%float.

(** An event that falls after all the data: three rows per frame, dated
    on the three days before the event, with the parameters already set;
    [first_return] is the first return of the instrument. *)
Definition late_event (first_return : float) : EventStudy :=
  let frame r1 r2 r3 :=
    mkDataFrame [mkRow (mkTimestamp (wednesday - 3) 0) 100 r1;
                 mkRow (mkTimestamp (wednesday - 2) 0) 100 r2;
                 mkRow (mkTimestamp (wednesday - 1) 0) 100 r3] true in
  set_alpha_beta 0 1
    (set_market_data (Some (frame 0.002 0.001 (-0.003))%float)
       (set_stock_data (Some (frame first_return 0.004 0.005)%float)
          (EventStudy_init (mkTimestamp wednesday 0) "TEST" 252 3 "SPY"))).

(** A study with a short estimation window: more rows are fetched before
    the event window than the window keeps. *)
Definition short_window : EventStudy :=
  EventStudy_init (mkTimestamp wednesday 50400000000000) "TEST" 30 1 "SPY".

(** The same instrument as the market index: every abnormal return is
    exactly zero. *)
Definition index_study : EventStudy :=
  EventStudy_init (mkTimestamp wednesday 0) "SPY" 252 1 "SPY".

(** Libraries that are out of reach: every call that can fail does. *)
Definition offline : Libs := {|
  yf_history := fun _ _ _ => Raised "ConnectionError";
  sm_ols_fit := fun _ _ => Raised "LinAlgError";
  student_t_cdf := fun _ _ => nan;
  ttest_1samp := fun _ _ => (nan, nan);
  py_round := fun x _ => x;
  format_fixed := fun _ _ => EmptyString;
  isoformat := fun _ => EmptyString;
  date_isoformat := fun _ => EmptyString
|}.

(** An object with fetched data whose event window holds no trading day:
    the rows end nine days before the event. *)
Definition stale_data : EventStudy := two_rows 5.

(** An object holding a series with a missing value. *)
Definition with_missing : EventStudy :=
  seven_days [0.01; nan; 0.03; 0.02]%float 0.03.

End Ref.

(** A binary64 datum that is zero, or positive (finite or infinite). *)
Definition nonneg_sf (x : spec_float) : Prop :=
  match x with
  | S754_zero _ => True
  | S754_infinity s => s = false
  | S754_nan => False
  | S754_finite s _ _ => s = false
  end.

(** Tactics that step through a method of the object. *)
Ltac unfold_monad :=
  unfold bind, ret, get, modify, lift, raise, try_except in *.

Ltac break_match_in H :=
  match type of H with
  | context [match ?x with _ => _ end] => destruct x eqn:?
  | context [if ?x then _ else _] => destruct x eqn:?
  end.

Ltac step_in H :=
  repeat (first [ discriminate H
                | progress (injection H as H; subst)
                | break_match_in H ]).

(** * Properties *)

(** ** Worked examples *)

Example median_odd : Np.median [3; 1; 2]%float = 2%float.
Proof. reflexivity. Qed.

Example median_even : Np.median [4; 1; 3; 2]%float = 2.5%float.
Proof. reflexivity. Qed.

Example median_nan : PrimFloat.is_nan (Np.median [1; nan; 3]%float) = true.
Proof. reflexivity. Qed.

Example iloc_minus_two : Pd.iloc_from (-2) [1; 2; 3] = [2; 3].
Proof. reflexivity. Qed.

Example iloc_minus_zero : Pd.iloc_from (- 0) [1; 2; 3] = [1; 2; 3].
Proof. reflexivity. Qed.

Example civil_wednesday : Ref.date_iso Ref.wednesday = "2019-10-02"%string.
Proof. reflexivity. Qed.

Example fixed_two : Ref.fixed 2 2.5%float = "2.50"%string.
Proof. reflexivity. Qed.

Example round_three : Ref.round 0.14449%float 3 = 0.144%float.
Proof. reflexivity. Qed.

Example capitalize_positive : Str.capitalize "positive" = "Positive"%string.
Proof. reflexivity. Qed.

(** ** Facts about binary64 comparison and subtraction *)

Module FloatFacts.

Lemma shr_1_nonneg mrs : 0 <= shr_m mrs -> 0 <= shr_m (shr_1 mrs).
Proof.
  destruct mrs as [m r s]; simpl.
  destruct m as [|p|p]; simpl; try lia; destruct p; simpl; lia.
Qed.

Lemma iter_pos_shr_1_nonneg n : forall mrs,
  0 <= shr_m mrs -> 0 <= shr_m (iter_pos shr_1 n mrs).
Proof.
  induction n; intros mrs H; simpl; auto using shr_1_nonneg.
Qed.

Lemma shr_nonneg mrs e n :
  0 <= shr_m mrs -> 0 <= shr_m (fst (shr mrs e n)).
Proof.
  intros H. destruct n; simpl; auto using iter_pos_shr_1_nonneg.
Qed.

Lemma shr_record_of_loc_m m l : shr_m (shr_record_of_loc m l) = m.
Proof. destruct l as [|[]]; reflexivity. Qed.

Lemma shr_fexp_nonneg m e l :
  0 <= m -> 0 <= shr_m (fst (shr_fexp prec emax m e l)).
Proof.
  intros H. unfold shr_fexp. apply shr_nonneg.
  now rewrite shr_record_of_loc_m.
Qed.

Lemma round_nearest_even_nonneg m l :
  0 <= m -> 0 <= round_nearest_even m l.
Proof.
  intros H. destruct l as [|[]]; simpl; try lia.
  destruct (Z.even m); lia.
Qed.

Lemma binary_round_aux_nonneg m e l :
  0 <= m -> nonneg_sf (binary_round_aux prec emax false m e l).
Proof.
  intros H. unfold binary_round_aux.
  pose proof (shr_fexp_nonneg m e l H) as H1.
  destruct (shr_fexp prec emax m e l) as [mrs' e']. simpl in H1.
  pose proof (shr_fexp_nonneg _ e' loc_Exact
                (round_nearest_even_nonneg _ (loc_of_shr_record mrs') H1))
    as H2.
  destruct (shr_fexp prec emax _ e' loc_Exact) as [mrs'' e''].
  simpl in H2.
  destruct (shr_m mrs'') as [|p|p]; simpl; auto; try lia.
  destruct (e'' <=? _); simpl; auto.
Qed.

Lemma binary_normalize_nonneg m e :
  0 <= m -> nonneg_sf (binary_normalize prec emax m e false).
Proof.
  intros H. destruct m as [|p|p]; simpl; auto; try lia.
  unfold binary_round.
  destruct (shl_align p e _) as [mz ez].
  apply binary_round_aux_nonneg. lia.
Qed.

Lemma nonneg_sf_leb x : nonneg_sf x -> SFleb (S754_zero false) x = true.
Proof.
  destruct x as [s|s| |s m e]; simpl; intros H; try subst;
    try reflexivity; tauto.
Qed.

Lemma digits2_pos_bound m : Zpos m < 2 ^ Zpos (digits2_pos m).
Proof.
  induction m; simpl digits2_pos;
    rewrite ?Pos2Z.inj_succ, ?Z.pow_succ_r by lia; try lia.
Qed.

Lemma iter_xO_double m d : 2 * Zpos m <= Zpos (Pos.iter xO m d).
Proof.
  induction d using Pos.peano_ind.
  - simpl. lia.
  - rewrite Pos.iter_succ. lia.
Qed.

Lemma valid_mantissa_bound m e :
  bounded prec emax m e = true -> Zpos m < 2 ^ 53.
Proof.
  unfold bounded, canonical_mantissa, fexp. intros H.
  apply andb_prop in H. destruct H as [H _]. apply Z.eqb_eq in H.
  pose proof (digits2_pos_bound m).
  assert (Zpos (digits2_pos m) <= 53) by (unfold prec in H; lia).
  eapply Z.lt_le_trans; [eassumption|].
  apply Z.pow_le_mono_r; lia.
Qed.

Lemma SFsub_one_nonneg y :
  valid_binary y = true ->
  SFltb y (Prim2SF 1) = true ->
  nonneg_sf (SFsub prec emax (Prim2SF 1) y).
Proof.
  intros Hv Hlt.
  change (Prim2SF 1) with (S754_finite false 4503599627370496 (-52)) in *.
  destruct y as [s|s| |s m e];
    cbn [SFsub SFltb SFcompare valid_binary nonneg_sf] in *;
    try discriminate.
  - reflexivity.
  - destruct s; [reflexivity | discriminate].
  - apply binary_normalize_nonneg.
    destruct s; cbn [cond_Zopp].
    + lia.
    + destruct (Z.compare_spec e (-52)) as [He|He|He]; try discriminate.
      * subst e. rewrite Z.min_id. unfold shl_align.
        rewrite Z.sub_diag. cbn [fst].
        rewrite Pos.compare_cont_spec in Hlt.
        destruct (Pos.compare_spec m 4503599627370496) as [Hm|Hm|Hm];
          cbn [Pos.switch_Eq] in Hlt; try discriminate.
        apply Pos2Z.pos_lt_pos in Hm. lia.
      * rewrite Z.min_r by lia. unfold shl_align.
        rewrite Z.sub_diag. cbn [fst].
        pose proof (valid_mantissa_bound _ _ Hv) as Hm.
        destruct (e - -52) eqn:Hd; try lia. cbn [fst].
        pose proof (iter_xO_double 4503599627370496 p). lia.
Qed.

(** Below one, the distance to one is not negative (and is a number). *)
Lemma sub_one_nonneg (p : float) :
  (p <? 1)%float = true -> (0 <=? 1 - p)%float = true.
Proof.
  rewrite ltb_spec, leb_spec, sub_spec. intros H. unfold SF64sub.
  change (Prim2SF 0) with (S754_zero false).
  apply nonneg_sf_leb, SFsub_one_nonneg; auto using Prim2SF_valid.
Qed.

Lemma eqb_zero_not_pos (f : float) :
  (f =? 0)%float = true -> (0 <? f)%float = false.
Proof.
  rewrite eqb_spec, ltb_spec.
  destruct (Prim2SF f) as [s|s| |s m e]; try destruct s; cbn; congruence.
Qed.

Lemma eqb_zero_not_neg (f : float) :
  (f =? 0)%float = true -> (f <? 0)%float = false.
Proof.
  rewrite eqb_spec, ltb_spec.
  destruct (Prim2SF f) as [s|s| |s m e]; try destruct s; cbn; congruence.
Qed.

Lemma SFcompare_antisym x y :
  SFcompare y x = option_map CompOpp (SFcompare x y).
Proof.
  destruct x as [s|s| |s m e], y as [s'|s'| |s' m' e'];
    try destruct s; try destruct s'; simpl; try reflexivity.
  - rewrite (Z.compare_antisym e' e).
    destruct (e' ?= e); simpl; try reflexivity.
    rewrite (Pos.compare_cont_antisym m m' Eq). simpl.
    rewrite ?CompOpp_involutive. reflexivity.
  - rewrite (Z.compare_antisym e' e).
    destruct (e' ?= e); simpl; try reflexivity.
    rewrite (Pos.compare_cont_antisym m m' Eq). simpl.
    rewrite ?CompOpp_involutive. reflexivity.
Qed.

(** What is not above a bound, and is a number, is at most the bound. *)
Lemma not_ltb_leb (a c : float) :
  (a <? c)%float = false -> (c =? c)%float = true ->
  (a =? a)%float = true -> (c <=? a)%float = true.
Proof.
  rewrite ltb_spec, leb_spec, !eqb_spec.
  unfold SFltb, SFleb, SFeqb.
  rewrite (SFcompare_antisym (Prim2SF a) (Prim2SF c)).
  destruct (SFcompare (Prim2SF a) (Prim2SF c)) as [[]|] eqn:E;
    cbn [option_map CompOpp]; try reflexivity; try discriminate.
  intros _ Hc Ha. exfalso.
  destruct (Prim2SF a) as [s|s| |s m e], (Prim2SF c) as [s'|s'| |s' m' e'];
    cbn [SFcompare] in *; discriminate.
Qed.

Lemma leb_refl_number (c : float) :
  (0 <=? c)%float = true -> (c =? c)%float = true.
Proof.
  rewrite leb_spec, eqb_spec.
  change (Prim2SF 0) with (S754_zero false).
  unfold SFleb, SFeqb.
  destruct (Prim2SF c) as [s|s| |s m e]; simpl; try discriminate;
    try reflexivity.
  - destruct s; reflexivity.
  - destruct s; simpl; try discriminate.
    rewrite Z.compare_refl.
    change (Pos.compare_cont Eq m m) with (m ?= m)%positive.
    now rewrite Pos.compare_refl.
Qed.

(** Nothing at most [0.99] equals one. *)
Lemma leb_099_not_one (c : float) :
  (c <=? 0.99)%float = true -> (c =? 1)%float = false.
Proof.
  rewrite leb_spec, eqb_spec.
  remember (Prim2SF 0.99%float) as b eqn:Eb. vm_compute in Eb. subst b.
  change (Prim2SF 1) with (S754_finite false 4503599627370496 (-52)).
  unfold SFleb, SFeqb.
  destruct (Prim2SF c) as [s|s| |s m e]; cbn [SFcompare];
    try reflexivity.
  - destruct s; reflexivity.
  - destruct s; try reflexivity.
    destruct (Z.compare_spec e (-52)) as [He|He|He]; try reflexivity.
    subst e. intros H. exfalso.
    change (-52 ?= -53) with Gt in H. discriminate.
Qed.

End FloatFacts.

(** ** The significance test *)

Section StatisticalTest.

Context `{L : Libs}.

Lemma confidence_of_range (p : float) :
  (0 <=? confidence_of p)%float = true
  /\ (confidence_of p <=? 0.99)%float = true
  /\ (confidence_of p =? 1)%float = false.
Proof.
  assert (H : (0 <=? confidence_of p)%float = true
              /\ (confidence_of p <=? 0.99)%float = true).
  { unfold confidence_of. destruct (p <? 1)%float eqn:Hp.
    - pose proof (FloatFacts.sub_one_nonneg p Hp) as Hn.
      unfold F.py_min. destruct (0.99 <? 1 - p)%float eqn:Hc.
      + split; reflexivity.
      + split; [exact Hn|].
        apply FloatFacts.not_ltb_leb; auto using FloatFacts.leb_refl_number.
    - split; reflexivity. }
  destruct H as [H0 H1]. repeat split; auto.
  now apply FloatFacts.leb_099_not_one.
Qed.

Lemma statistical_test_confidence (use_robust : bool) (self : EventStudy) :
  let r := fst (statistical_test use_robust self) in
  tr_confidence r = confidence_of (tr_p_value r).
Proof.
  unfold statistical_test, confidence_of.
  destruct (ar_series self) as [s|]; [|reflexivity].
  destruct (Z.of_nat (length s) =? 0); [reflexivity|].
  destruct use_robust; simpl;
    match goal with
    | |- context [(?p <? 1)%float] => destruct (p <? 1)%float
    end; reflexivity.
Qed.

(** C10.  In both modes the returned confidence is [min(1 - p, 0.99)] when
    the returned p-value is below one and [0.0] otherwise; it therefore
    lies in [[0, 0.99]] and is never one. *)
Theorem confidence_capped (use_robust : bool) (self : EventStudy) :
  let r := fst (statistical_test use_robust self) in
  tr_confidence r
  = (if (tr_p_value r <? 1)%float
     then F.py_min (1 - tr_p_value r)%float 0.99%float
     else 0%float)
  /\ (0 <=? tr_confidence r)%float = true
  /\ (tr_confidence r <=? 0.99)%float = true
  /\ (tr_confidence r =? 1)%float = false.
Proof.
  intros r. pose proof (statistical_test_confidence use_robust self) as H.
  fold r in H. cbv zeta in H. split; [exact H|].
  rewrite H. apply confidence_of_range.
Qed.

(** C2.  On a non-empty series with a positive MAD the robust test
    returns [median / ((1.4826 * MAD) / sqrt n)] and the two-sided
    p-value of Student's t with [n - 1] degrees of freedom. *)
Theorem robust_statistic (self : EventStudy) (series : Series) :
  ar_series self = Some series ->
  series <> [] ->
  (0 <? MAD (Pd.values series))%float = true ->
  let v := Pd.values series in
  let n := Z.of_nat (length series) in
  let t := (Np.median v
            / ((1.4826 * MAD v) / PrimFloat.sqrt (F.of_Z n)))%float in
  let r := fst (statistical_test true self) in
  tr_t_statistic r = t
  /\ tr_p_value r
     = (2 * (1 - Scipy.t_cdf (PrimFloat.abs t) (n - 1)))%float
  /\ tr_method r = Some "robust"%string.
Proof.
  intros Hs Hne Hmad v n t r. subst r.
  unfold statistical_test. rewrite Hs.
  destruct series as [|x xs]; [congruence|].
  change (Z.of_nat (length (x :: xs)) =? 0) with false. cbv iota.
  unfold MAD in Hmad. unfold Np.abs_dev.
  cbv zeta. rewrite Hmad.
  cbn [fst tr_t_statistic tr_p_value tr_method].
  subst t v n. unfold MAD, Np.sqrt_int, Pd.values.
  rewrite !length_map.
  split; [reflexivity | split; reflexivity].
Qed.

(** The degenerate case with at least two observations: a MAD of exactly
    zero gives [t = 0], [p = 1], not significant, confidence [0]
    (Student's t is symmetric about zero). *)
Lemma zero_mad_two_or_more (self : EventStudy) (series : Series) :
  ar_series self = Some series ->
  (2 <= length series)%nat ->
  (MAD (Pd.values series) =? 0)%float = true ->
  student_t_cdf 0%float (Z.of_nat (length series) - 1) = 0.5%float ->
  let r := fst (statistical_test true self) in
  tr_t_statistic r = 0%float /\ tr_p_value r = 1%float
  /\ tr_is_significant r = false /\ tr_confidence r = 0%float.
Proof.
  intros Hs Hlen Hmad Hsym r. subst r.
  unfold statistical_test. rewrite Hs.
  destruct (Z.eqb_spec (Z.of_nat (length series)) 0) as [E|_]; [lia|].
  unfold MAD in Hmad. unfold Np.abs_dev. cbv zeta.
  rewrite (FloatFacts.eqb_zero_not_pos _ Hmad).
  cbn [fst tr_t_statistic tr_p_value tr_is_significant tr_confidence].
  unfold Pd.values. rewrite !length_map.
  unfold Scipy.t_cdf.
  destruct (Z.leb_spec (Z.of_nat (length series) - 1) 0) as [E|_]; [lia|].
  change (PrimFloat.abs 0) with 0%float.
  change (PrimFloat.is_nan 0) with false. cbv [orb].
  rewrite Hsym.
  split; [reflexivity | split; [reflexivity | split; reflexivity]].
Qed.

(** No observation at all: the early return of lines 280-286. *)
Lemma no_observation (use_robust : bool) (self : EventStudy) :
  observations self = [] ->
  fst (statistical_test use_robust self)
  = mkTestResult 0 1 false 0 None.
Proof.
  unfold observations, statistical_test.
  destruct (ar_series self) as [s|]; [|reflexivity].
  intros ->. reflexivity.
Qed.

(** C1, at a series of one observation.  Its MAD is exactly zero, the
    statistic is zero and the result is not significant with confidence
    zero, but the p-value is [nan], not one: the test asks for Student's t
    with [n - 1 = 0] degrees of freedom. *)
Theorem single_observation_p_value_nan :
  let self := Ref.holding 737333 737333 [0%float] (Some 0%float) in
  let r := fst (statistical_test true self) in
  (MAD (Pd.values (observations self)) =? 0)%float = true
  /\ tr_t_statistic r = 0%float
  /\ PrimFloat.is_nan (tr_p_value r) = true
  /\ (tr_p_value r =? 1)%float = false
  /\ tr_is_significant r = false
  /\ tr_confidence r = 0%float.
Proof.
  cbv zeta.
  split; [vm_compute; reflexivity|].
  split; [vm_compute; reflexivity|].
  split; [vm_compute; reflexivity|].
  split; [vm_compute; reflexivity|].
  split; vm_compute; reflexivity.
Qed.

(** C5.  [filter_outliers] answers true exactly when there are at least
    three observations, the MAD is not zero and the event-day value lies
    more than [threshold] MADs from the median. *)
Theorem outlier_flag (threshold : float) (self : EventStudy) :
  let v := Pd.values (observations self) in
  (filter_outliers threshold self = true
   <-> (3 <= length (observations self))%nat
       /\ (MAD v =? 0)%float = false
       /\ exists event_ar,
            ar self = Some event_ar
            /\ (threshold * MAD v
                <? PrimFloat.abs (event_ar - Np.median v))%float = true)
  /\ ((length (observations self) < 3)%nat ->
      filter_outliers threshold self = false)
  /\ ((MAD v =? 0)%float = true -> filter_outliers threshold self = false).
Proof.
  unfold filter_outliers, observations, MAD, Np.abs_dev.
  destruct (ar_series self) as [s|]; cbv zeta.
  - destruct (Z.ltb_spec (Z.of_nat (length s)) 3) as [Hl|Hl].
    + split; [split|split]; try reflexivity; try discriminate.
      intros [H _]. lia.
    + destruct (Np.median _ =? 0)%float eqn:Hm.
      * split; [split|split]; try reflexivity; try discriminate.
        intros (_ & H & _). discriminate.
      * destruct (ar self) as [a|].
        -- split; [split|split]; try discriminate; try (intros; lia).
           ++ intros H. split; [lia|]. split; [reflexivity|].
              exists a. split; [reflexivity | exact H].
           ++ intros (_ & _ & a' & Ha & H). inversion Ha; subst. exact H.
        -- split; [split|split]; try reflexivity; try discriminate.
           intros (_ & _ & a' & Ha & _). discriminate.
  - cbn [length]. split; [split|split]; try reflexivity; try discriminate.
    intros [H _]. lia.
Qed.

End StatisticalTest.

(** ** Index labels *)

Lemma Timestamp_eqb_refl (t : Timestamp) : Timestamp_eqb t t = true.
Proof. unfold Timestamp_eqb. now rewrite !Z.eqb_refl. Qed.

Lemma Timestamp_eqb_date (a b : Timestamp) :
  Timestamp_eqb a b = true -> date_of a = date_of b.
Proof.
  unfold Timestamp_eqb, date_of. intros H.
  apply andb_prop in H. destruct H as [H _]. now apply Z.eqb_eq.
Qed.

Lemma Timestamp_eqb_eq (a b : Timestamp) :
  Timestamp_eqb a b = true -> a = b.
Proof.
  unfold Timestamp_eqb. destruct a, b. cbn [ts_day ts_nanos]. intros H.
  apply andb_prop in H. destruct H as [H1 H2].
  apply Z.eqb_eq in H1, H2. now subst.
Qed.

(** ** Summation *)

(** Where an array longer than 128 is split, both parts are shorter. *)
Lemma split_point (n : nat) :
  (128 < n)%nat -> (1 <= n / 2 - (n / 2) mod 8 < n)%nat.
Proof.
  intros H.
  pose proof (Nat.div_mod_eq n 2) as H2.
  pose proof (Nat.mod_upper_bound n 2 ltac:(discriminate)) as H3.
  pose proof (Nat.mod_upper_bound (n / 2) 8 ltac:(discriminate)) as H4.
  lia.
Qed.

(** The sum does not depend on the number of levels, once there are as
    many as the array is long: the recursion always reaches arrays of at
    most 128 values. *)
Lemma pairwise_sum_levels (k1 k2 : nat) (a : list float) :
  (length a <= k1)%nat -> (length a <= k2)%nat ->
  Np.pairwise_sum k1 a = Np.pairwise_sum k2 a.
Proof.
  revert k2 a. induction k1 as [|k1 IH]; intros k2 a H1 H2.
  - destruct a; [|cbn in H1; lia]. destruct k2; reflexivity.
  - destruct k2 as [|k2].
    + destruct a; [|cbn in H2; lia]. reflexivity.
    + cbn [Np.pairwise_sum].
      destruct (Nat.ltb_spec 128 (length a)) as [Hn|Hn]; [|reflexivity].
      pose proof (split_point _ Hn) as Hs.
      rewrite (IH k2 (firstn _ a)), (IH k2 (skipn _ a));
        rewrite ?length_firstn, ?length_skipn; try lia.
      reflexivity.
Qed.

(** ** Dates *)

Lemma minus_days_ok (d n r : Z) :
  Datetime.minus_days d n = Ok r ->
  r = d - n /\ valid_offset n /\ valid_date (d - n).
Proof.
  unfold Datetime.minus_days, Datetime.timedelta, Datetime.add,
    valid_offset, valid_date, Datetime.MAX_DELTA_DAYS, Datetime.MINORDINAL,
    Datetime.MAXORDINAL.
  destruct (Z.abs n <=? 999999999) eqn:En; [|discriminate].
  destruct ((1 <=? d + - n) && (d + - n <=? 3652059)) eqn:Ed;
    [|discriminate].
  intros [= <-]. apply Z.leb_le in En. apply andb_prop in Ed.
  destruct Ed as [E1 E2]. apply Z.leb_le in E1, E2. lia.
Qed.

Lemma plus_days_ok (d n r : Z) :
  Datetime.plus_days d n = Ok r ->
  r = d + n /\ valid_offset n /\ valid_date (d + n).
Proof.
  unfold Datetime.plus_days, Datetime.timedelta, Datetime.add,
    valid_offset, valid_date, Datetime.MAX_DELTA_DAYS, Datetime.MINORDINAL,
    Datetime.MAXORDINAL.
  destruct (Z.abs n <=? 999999999) eqn:En; [|discriminate].
  destruct ((1 <=? d + n) && (d + n <=? 3652059)) eqn:Ed; [|discriminate].
  intros [= <-]. apply Z.leb_le in En. apply andb_prop in Ed.
  destruct Ed as [E1 E2]. apply Z.leb_le in E1, E2. lia.
Qed.

Lemma minus_days_valid (d n : Z) :
  valid_offset n -> valid_date (d - n) ->
  Datetime.minus_days d n = Ok (d - n).
Proof.
  unfold Datetime.minus_days, Datetime.timedelta, Datetime.add,
    valid_offset, valid_date, Datetime.MAX_DELTA_DAYS, Datetime.MINORDINAL,
    Datetime.MAXORDINAL.
  intros Hn Hd.
  destruct (Z.leb_spec (Z.abs n) 999999999) as [_|H]; [|lia].
  destruct (Z.leb_spec 1 (d + - n)) as [_|H]; [|lia].
  destruct (Z.leb_spec (d + - n) 3652059) as [_|H]; [|lia].
  reflexivity.
Qed.

Lemma plus_days_valid (d n : Z) :
  valid_offset n -> valid_date (d + n) ->
  Datetime.plus_days d n = Ok (d + n).
Proof.
  unfold Datetime.plus_days, Datetime.timedelta, Datetime.add,
    valid_offset, valid_date, Datetime.MAX_DELTA_DAYS, Datetime.MINORDINAL,
    Datetime.MAXORDINAL.
  intros Hn Hd.
  destruct (Z.leb_spec (Z.abs n) 999999999) as [_|H]; [|lia].
  destruct (Z.leb_spec 1 (d + n)) as [_|H]; [|lia].
  destruct (Z.leb_spec (d + n) 3652059) as [_|H]; [|lia].
  reflexivity.
Qed.

(** Steps over the date arithmetic of a method that returned. *)
Ltac in_range H :=
  repeat match type of H with
         | context [Datetime.minus_days ?d ?n] =>
             let E := fresh "Elo" in
             destruct (Datetime.minus_days d n) eqn:E; [|discriminate H];
             apply minus_days_ok in E; destruct E as (-> & ? & ?)
         | context [Datetime.plus_days ?d ?n] =>
             let E := fresh "Ehi" in
             destruct (Datetime.plus_days d n) eqn:E; [|discriminate H];
             apply plus_days_ok in E; destruct E as (-> & ? & ?)
         end.

(** ** Cumulative abnormal return *)

Section CumulativeReturn.

Context `{L : Libs}.

Lemma fillna0_none_missing (l : list float) :
  none_missing l -> Pd.fillna0 l = l.
Proof.
  unfold none_missing, Pd.fillna0.
  induction l as [|x l IH]; [reflexivity|]. cbn [forallb map]. intros H.
  apply andb_prop in H. destruct H as [Hx Hl].
  apply negb_true_iff in Hx. rewrite Hx. now rewrite IH.
Qed.

Lemma notna_none_missing (l : list float) :
  none_missing l -> Pd.notna l = l.
Proof.
  unfold none_missing, Pd.notna.
  induction l as [|x l IH]; [reflexivity|]. cbn [forallb filter]. intros H.
  apply andb_prop in H. destruct H as [Hx Hl].
  rewrite Hx. now rewrite IH.
Qed.

(** With no missing value, [Series.sum()] is numpy's sum of all the
    values. *)
Lemma sum_without_missing (s : Series) :
  none_missing (Pd.values s) -> Pd.sum s = Np.sum (Pd.values s).
Proof. intros H. unfold Pd.sum. now rewrite fillna0_none_missing. Qed.

Lemma mean_without_missing (s : Series) :
  s <> [] -> none_missing (Pd.values s) ->
  Pd.mean s = arithmetic_mean (Pd.values s).
Proof.
  intros Hne H. unfold Pd.mean, arithmetic_mean.
  rewrite (notna_none_missing _ H), (sum_without_missing _ H).
  destruct s as [|x s]; [congruence|]. reflexivity.
Qed.

Lemma window_filter (lo hi : Z) (s : Series) :
  filter (fun tv => (date_of (fst tv) >=? lo) && (date_of (fst tv) <=? hi)) s
  = entries_between lo hi s.
Proof.
  unfold entries_between. apply filter_ext. intros tv.
  now rewrite Z.geb_leb.
Qed.

(** C6.  With no sub-window [calculate_car] returns the sum of the series
    as pandas takes it, a missing value counting as zero: the sum of all
    values when none is missing.  With [(days_before, days_after)], both
    offsets a [timedelta] can hold and both ends dates, it returns that sum
    over the values dated in
    [[event_date - days_before, event_date + days_after]]; for any other
    sub-window it raises.  A result is also stored in [car]. *)
Theorem car_is_sum (self : EventStudy) (series : Series) :
  ar_series self = Some series ->
  let event_date := date_of (event_timestamp self) in
  calculate_car None self
  = (Ok (Pd.sum series), set_car (Some (Pd.sum series)) self)
  /\ (forall days_before days_after,
        valid_offset days_before -> valid_offset days_after ->
        valid_date (event_date - days_before) ->
        valid_date (event_date + days_after) ->
        let window :=
          entries_between (event_date - days_before)
                          (event_date + days_after) series in
        calculate_car (Some (days_before, days_after)) self
        = (Ok (Pd.sum window), set_car (Some (Pd.sum window)) self))
  /\ (forall days_before days_after,
        ~ (valid_offset days_before /\ valid_offset days_after
           /\ valid_date (event_date - days_before)
           /\ valid_date (event_date + days_after)) ->
        exists e,
          calculate_car (Some (days_before, days_after)) self
          = (Raised e, self))
  /\ (forall s : Series,
        none_missing (Pd.values s) -> Pd.sum s = Np.sum (Pd.values s)).
Proof.
  intros Hs event_date. split; [|split; [|split]].
  - unfold calculate_car. unfold_monad. rewrite Hs. rewrite Hs. reflexivity.
  - intros b a Hb Ha Hlo Hhi window. unfold calculate_car. unfold_monad.
    rewrite Hs. fold event_date.
    rewrite (minus_days_valid _ _ Hb Hlo), (plus_days_valid _ _ Ha Hhi).
    rewrite Hs. rewrite window_filter. reflexivity.
  - intros b a Hnot. unfold calculate_car. unfold_monad.
    rewrite Hs. fold event_date.
    destruct (Datetime.minus_days event_date b) as [lo|e] eqn:Elo; [|eauto].
    destruct (Datetime.plus_days event_date a) as [hi|e] eqn:Ehi; [|eauto].
    exfalso. apply Hnot.
    apply minus_days_ok in Elo. apply plus_days_ok in Ehi. tauto.
  - apply sum_without_missing.
Qed.

End CumulativeReturn.

(** ** Event-day abnormal return *)

Section EventDay.

Context `{L : Libs}.

Lemma loc_skip (p q : Series) (t : Timestamp) :
  (forall tv, In tv p -> Timestamp_eqb (fst tv) t = false) ->
  Pd.loc (p ++ q) t = Pd.loc q t.
Proof.
  induction p as [|[t' v] p IH]; intros H; [reflexivity|].
  cbn [app Pd.loc].
  pose proof (H (t', v) (or_introl eq_refl)) as Ht. cbn [fst] in Ht.
  rewrite Ht. apply IH. intros tv Hin. apply H. now right.
Qed.

(** The loop over the index finds the first entry dated on or after the
    event date. *)
Lemma first_on_or_after_find (event_date : Z) (q p : Series) :
  (forall tv, In tv p -> date_of (fst tv) < event_date) ->
  first_on_or_after event_date (Pd.index q) (p ++ q)
  = option_map snd (first_entry_on_or_after event_date q).
Proof.
  revert p. induction q as [|[t v] q IH]; intros p Hp; [reflexivity|].
  cbn [Pd.index map first_on_or_after first_entry_on_or_after find fst].
  rewrite Z.geb_leb.
  destruct (Z.leb_spec event_date (date_of t)) as [Hd|Hd].
  - cbn [option_map snd]. rewrite loc_skip.
    + cbn [Pd.loc]. now rewrite Timestamp_eqb_refl.
    + intros tv Hin. destruct (Timestamp_eqb (fst tv) t) eqn:E; [|easy].
      apply Timestamp_eqb_date in E. specialize (Hp tv Hin). lia.
  - change (p ++ (t, v) :: q) with (p ++ [(t, v)] ++ q).
    rewrite app_assoc. apply IH.
    intros tv Hin. apply in_app_or in Hin. destruct Hin as [Hin|[<-|[]]].
    + now apply Hp.
    + exact Hd.
Qed.

(** C4.  After [calculate_ar] has produced a non-empty series, the stored
    event-day value is the value at the first date on or after the event
    date.  When there is no such date it is the mean of the series as
    pandas takes it, over the values that are present; that is the
    arithmetic mean of all values when none is missing. *)
Theorem event_day_ar (self self' : EventStudy) (series : Series) :
  calculate_ar self = (Ok series, self') ->
  series <> [] ->
  let event_date := date_of (event_timestamp self') in
  ar_series self' = Some series
  /\ ar self'
     = Some match first_entry_on_or_after event_date series with
            | Some entry => snd entry
            | None => Pd.mean series
            end
  /\ (none_missing (Pd.values series) ->
      Pd.mean series = arithmetic_mean (Pd.values series)).
Proof.
  intros H Hne event_date. subst event_date.
  unfold calculate_ar in H. unfold_monad. cbv beta iota in H.
  match type of H with
  | (let (_, _) := ?X in _) = _ => destruct X as [[u|e] self1]
  end; [|discriminate].
  in_range H. cbv beta iota zeta in H.
  destruct (stock_data self1) as [stock|]; [|discriminate].
  destruct (market_data self1) as [market|]; [|discriminate].
  match type of H with
  | context [if ?c then _ else _] => destruct c
  end; [injection H as H _; congruence|].
  match type of H with
  | context [Frame.loc_return ?x ?y] =>
      destruct (Frame.loc_return x y) as [sr|]; [|discriminate]
  end.
  match type of H with
  | context [Frame.loc_return ?x ?y] =>
      destruct (Frame.loc_return x y) as [mr|]; [|discriminate]
  end.
  destruct (alpha self1) as [pa|]; [|discriminate].
  destruct (beta self1) as [pb|]; [|discriminate].
  injection H as Hs Hself. subst self'.
  cbn [ar ar_series set_ar set_ar_series event_timestamp].
  rewrite Hs. split; [reflexivity|].
  split; [|now apply mean_without_missing].
  f_equal.
  rewrite (first_on_or_after_find _ series []) by (intros ? []).
  destruct (first_entry_on_or_after _ series); reflexivity.
Qed.

End EventDay.

(** ** Estimation window *)

Section EstimationWindow.

Context `{L : Libs}.

Lemma find_row_some (rows : list Row) (t : Timestamp) (r : Row) :
  Frame.find_row rows t = Some r -> In r rows /\ row_idx r = t.
Proof.
  induction rows as [|r' rows IH]; cbn [Frame.find_row]; [discriminate|].
  destruct (Timestamp_eqb (row_idx r') t) eqn:E.
  - intros [= <-]. split; [now left | now apply Timestamp_eqb_eq].
  - intros H. destruct (IH H) as [Hin Hidx]. split; [now right | exact Hidx].
Qed.

Lemma loc_rows_ok (rows : list Row) (labels : list Timestamp)
      (rs : list Row) :
  Frame.loc_rows rows labels = Ok rs ->
  map row_idx rs = labels /\ incl rs rows.
Proof.
  revert rs. induction labels as [|t labels IH]; cbn [Frame.loc_rows].
  - intros rs [= <-]. split; [reflexivity | intros ? []].
  - intros rs H. destruct (Frame.find_row rows t) as [r|] eqn:Hf;
      [|discriminate].
    destruct (Frame.loc_rows rows labels) as [rs'|] eqn:Hl; [|discriminate].
    injection H as <-. destruct (find_row_some _ _ _ Hf) as [Hin Hidx].
    destruct (IH rs' eq_refl) as [Hmap Hincl]. split.
    + cbn [map]. now rewrite Hidx, Hmap.
    + intros x [<-|Hx]; [exact Hin | now apply Hincl].
Qed.

(** [df.loc[labels, 'return']] is indexed by [labels] and holds returns of
    rows of [df]. *)
Lemma loc_return_ok (df : DataFrame) (labels : list Timestamp) (s : Series) :
  Frame.loc_return df labels = Ok s ->
  Pd.index s = labels
  /\ forall tv, In tv s ->
       exists r, In r (df_rows df) /\ tv = (row_idx r, row_return r).
Proof.
  unfold Frame.loc_return. destruct (df_has_return df); [|discriminate].
  destruct (Frame.loc_rows (df_rows df) labels) as [rs|] eqn:Hl;
    [|discriminate].
  intros [= <-]. destruct (loc_rows_ok _ _ _ Hl) as [Hmap Hincl]. split.
  - unfold Pd.index. rewrite map_map. exact Hmap.
  - intros tv Hin. apply in_map_iff in Hin. destruct Hin as (r & <- & Hr).
    exists r. split; [now apply Hincl | reflexivity].
Qed.

Lemma intersection_incl (a b : list Timestamp) :
  incl (Pd.intersection a b) a.
Proof. intros t Ht. apply filter_In in Ht. tauto. Qed.

Lemma intersection_length (a b : list Timestamp) :
  (length (Pd.intersection a b) <= length a)%nat.
Proof. apply filter_length_le. Qed.

Lemma skipn_incl {A : Type} (k : nat) (l : list A) : incl (skipn k l) l.
Proof.
  intros x Hx. rewrite <- (firstn_skipn k l). apply in_or_app. now right.
Qed.

(** For a positive count, [iloc[-n:]] keeps the last [n] entries. *)
Lemma iloc_from_neg {A : Type} (n : Z) (l : list A) :
  0 < n -> Pd.iloc_from (- n) l = lastn (Z.to_nat n) l.
Proof.
  intros Hn. unfold Pd.iloc_from, lastn.
  destruct (Z.ltb_spec (- n) 0) as [_|H]; [|lia].
  f_equal. lia.
Qed.

Lemma lastn_all {A : Type} (n : nat) (l : list A) :
  (length l <= n)%nat -> lastn n l = l.
Proof.
  intros H. unfold lastn.
  replace (length l - n)%nat with 0%nat by lia. reflexivity.
Qed.

Lemma lastn_length {A : Type} (n : nat) (l : list A) :
  (length (lastn n l) <= n)%nat.
Proof. unfold lastn. rewrite length_skipn. lia. Qed.

Lemma lastn_incl {A : Type} (n : nat) (l : list A) : incl (lastn n l) l.
Proof.
  unfold lastn. intros x Hx.
  rewrite <- (firstn_skipn (length l - n) l). apply in_or_app. now right.
Qed.

(** What [estimation_sample] hands to the regression, whatever the
    window length. *)
Lemma estimation_sample_state (self self' : EventStudy)
      (r : res (Series * Series)) :
  estimation_sample self = (r, self') -> self' = self.
Proof.
  unfold estimation_sample. unfold_monad. cbv beta iota zeta.
  destruct (stock_data self); [|now intros [= _ <-]].
  destruct (market_data self); [|now intros [= _ <-]].
  destruct (Datetime.minus_days _ _); [|now intros [= _ <-]].
  match goal with
  | |- context [if ?c then _ else _] => destruct c
  end; cbv beta iota;
    repeat match goal with
           | |- context [Frame.loc_return ?x ?y] =>
               destruct (Frame.loc_return x y)
           end;
    now intros [= _ <-].
Qed.

Lemma estimation_sample_dates (self self' : EventStudy)
      (stock_returns market_returns : Series) :
  estimation_sample self = (Ok (stock_returns, market_returns), self') ->
  exists stock market,
    stock_data self = Some stock /\ market_data self = Some market
    /\ Pd.index stock_returns = Pd.index market_returns
    /\ (forall t, In t (Pd.index stock_returns) ->
          date_of t < date_of (event_timestamp self)
                      - event_window_days self)
    /\ (forall tv, In tv stock_returns ->
          exists r, In r (df_rows stock)
                    /\ tv = (row_idx r, row_return r))
    /\ (forall tv, In tv market_returns ->
          exists r, In r (df_rows market)
                    /\ tv = (row_idx r, row_return r))
    /\ (0 < estimation_window_days self ->
        incl (Pd.index stock_returns)
             (lastn (Z.to_nat (estimation_window_days self))
                    (map row_idx (rows_before_window self stock)))).
Proof.
  intros H. unfold estimation_sample in H. unfold_monad.
  cbv beta iota zeta in H.
  destruct (stock_data self) as [stock|]; [|discriminate].
  destruct (market_data self) as [market|]; [|discriminate].
  in_range H.
  exists stock, market. split; [reflexivity|]. split; [reflexivity|].
  set (est_end := date_of (event_timestamp self) - event_window_days self)
    in *.
  set (n := estimation_window_days self) in *.
  set (es := Frame.where_date (fun d => d <? est_end) stock) in *.
  set (em := Frame.where_date (fun d => d <? est_end) market) in *.
  assert (Hes : forall es' em',
    (if Frame.len es >? n
     then (Frame.iloc_from (- n) es, Frame.iloc_from (- n) em)
     else (es, em)) = (es', em') ->
    incl (df_rows es') (df_rows es) /\ incl (df_rows em') (df_rows em)
    /\ (0 < n -> df_rows es' = lastn (Z.to_nat n) (df_rows es))).
  { intros es' em' E. destruct (Z.gtb_spec (Frame.len es) n) as [Hg|Hg];
      injection E as <- <-.
    - cbn [Frame.iloc_from df_rows]. split; [|split].
      + unfold Pd.iloc_from. apply skipn_incl.
      + unfold Pd.iloc_from. apply skipn_incl.
      + intros Hn. now apply iloc_from_neg.
    - split; [|split]; try apply incl_refl.
      intros Hn. symmetry. apply lastn_all. unfold Frame.len in Hg. lia. }
  destruct (if Frame.len es >? n then _ else _) as [es' em'] eqn:E.
  destruct (Hes es' em' eq_refl) as (Hs & Hm & Hlast). clear Hes E.
  match type of H with
  | context [Frame.loc_return es' ?c] =>
      set (common := c) in *;
      destruct (Frame.loc_return es' common) as [sr|] eqn:Esr;
      [|discriminate]
  end.
  destruct (Frame.loc_return em' common) as [mr|] eqn:Emr; [|discriminate].
  injection H as <- <- _.
  destruct (loc_return_ok _ _ _ Esr) as [Hisr Hrsr].
  destruct (loc_return_ok _ _ _ Emr) as [Himr Hrmr].
  assert (Hcommon : incl common (Frame.index (df_rows es')))
    by apply intersection_incl.
  split; [congruence|]. split; [|split; [|split]].
  - intros t Ht. rewrite Hisr in Ht. apply Hcommon in Ht.
    unfold Frame.index in Ht. apply in_map_iff in Ht.
    destruct Ht as (r & <- & Hr). apply Hs in Hr.
    subst es. cbn [Frame.where_date df_rows] in Hr.
    apply filter_In in Hr. destruct Hr as [_ Hr]. now apply Z.ltb_lt.
  - intros tv Hin. destruct (Hrsr tv Hin) as (r & Hr & ->).
    exists r. split; [|reflexivity]. apply Hs in Hr.
    subst es. cbn [Frame.where_date df_rows] in Hr.
    apply filter_In in Hr. tauto.
  - intros tv Hin. destruct (Hrmr tv Hin) as (r & Hr & ->).
    exists r. split; [|reflexivity]. apply Hm in Hr.
    subst em. cbn [Frame.where_date df_rows] in Hr.
    apply filter_In in Hr. tauto.
  - intros Hn. rewrite Hisr. intros t Ht. apply Hcommon in Ht.
    unfold Frame.index in Ht. rewrite (Hlast Hn) in Ht.
    unfold lastn in *. rewrite <- skipn_map, length_map in *.
    exact Ht.
Qed.

Lemma estimation_sample_size (self self' : EventStudy)
      (stock_returns market_returns : Series) :
  estimation_sample self = (Ok (stock_returns, market_returns), self') ->
  0 < estimation_window_days self ->
  Z.of_nat (length stock_returns) <= estimation_window_days self
  /\ length market_returns = length stock_returns.
Proof.
  intros H Hn.
  assert (Hlen : length market_returns = length stock_returns).
  { destruct (estimation_sample_dates _ _ _ _ H)
      as (_ & _ & _ & _ & Hidx & _).
    unfold Pd.index in Hidx.
    now rewrite <- (length_map fst market_returns), <- Hidx, length_map. }
  split; [|exact Hlen].
  unfold estimation_sample in H. unfold_monad. cbv beta iota zeta in H.
  destruct (stock_data self) as [stock|]; [|discriminate].
  destruct (market_data self) as [market|]; [|discriminate].
  in_range H.
  set (n := estimation_window_days self) in *.
  match type of H with
  | context [Frame.len ?e >? n] => set (es := e) in *
  end.
  match type of H with
  | context [(es, ?e)] => set (em := e) in *
  end.
  assert (Hes : forall es' em',
    (if Frame.len es >? n
     then (Frame.iloc_from (- n) es, Frame.iloc_from (- n) em)
     else (es, em)) = (es', em') ->
    Z.of_nat (length (df_rows es')) <= n).
  { intros es' em' E. destruct (Z.gtb_spec (Frame.len es) n) as [Hg|Hg];
      injection E as <- <-.
    - cbn [Frame.iloc_from df_rows]. rewrite iloc_from_neg by exact Hn.
      pose proof (lastn_length (Z.to_nat n) (df_rows es)). lia.
    - exact Hg. }
  destruct (if Frame.len es >? n then _ else _) as [es' em'] eqn:E.
  pose proof (Hes es' em' eq_refl) as Hle. clear Hes E.
  match type of H with
  | context [Frame.loc_return es' ?c] =>
      set (common := c) in *;
      destruct (Frame.loc_return es' common) as [sr|] eqn:Esr;
      [|discriminate]
  end.
  destruct (Frame.loc_return em' common) as [mr|] eqn:Emr; [|discriminate].
  injection H as <- <- _.
  destruct (loc_return_ok _ _ _ Esr) as [Hisr _].
  rewrite <- (length_map fst sr). fold (Pd.index sr). rewrite Hisr.
  pose proof (intersection_length (Frame.index (df_rows es'))
                                  (Frame.index (df_rows em'))) as Hi.
  fold common in Hi. unfold Frame.index in Hi. rewrite length_map in Hi.
  lia.
Qed.

(** What [estimate_expected_return] did when it returned, and when it
    raised: the two parameters are assigned one after the other, so a fit
    with a single parameter leaves the first one behind. *)
Lemma estimate_ok (self self' : EventStudy) (a b : float) :
  estimate_expected_return self = (Ok (a, b), self') ->
  exists stock_returns market_returns,
    estimation_sample self = (Ok (stock_returns, market_returns), self)
    /\ sm_ols_params (Pd.values stock_returns) (Pd.values market_returns)
       = Ok (a, b)
    /\ self' = set_alpha_beta a b self.
Proof.
  unfold estimate_expected_return. unfold bind at 1.
  destruct (estimation_sample self) as [[[sr mr]|e] s] eqn:Es;
    [|discriminate].
  pose proof (estimation_sample_state _ _ _ Es) as ->.
  unfold_monad. cbn [fst snd].
  destruct (sm_ols_fit (Pd.values sr) (Pd.values mr)) as [params|e] eqn:Ef;
    [|discriminate].
  destruct (param params 0) as [a'|e] eqn:E0; [|discriminate].
  destruct (param params 1) as [b'|e] eqn:E1; [|discriminate].
  intros [= <- <- <-]. exists sr, mr. repeat split.
  unfold sm_ols_params. now rewrite Ef, E0, E1.
Qed.

Lemma estimate_raised (self self' : EventStudy) (e : string) :
  estimate_expected_return self = (Raised e, self') ->
  self' = self
  \/ exists stock_returns market_returns a,
       estimation_sample self = (Ok (stock_returns, market_returns), self)
       /\ sm_ols_fit (Pd.values stock_returns) (Pd.values market_returns)
          = Ok [a]
       /\ self' = set_alpha (Some a) self.
Proof.
  unfold estimate_expected_return. unfold bind at 1.
  destruct (estimation_sample self) as [[[sr mr]|e'] s] eqn:Es;
    pose proof (estimation_sample_state _ _ _ Es) as ->;
    [|intros [= _ <-]; now left].
  unfold_monad. cbn [fst snd].
  destruct (sm_ols_fit (Pd.values sr) (Pd.values mr)) as [params|e'] eqn:Ef;
    [|intros [= _ <-]; now left].
  destruct params as [|a [|b params]]; cbn [param nth_error].
  - intros [= _ <-]. now left.
  - intros [= _ <-]. right. exists sr, mr, a. repeat split; assumption.
  - discriminate.
Qed.

End EstimationWindow.

Section EstimationFit.

Context `{L : Libs}.

(** X16.  The regression is fitted on the returns of instrument
    (response) and market (regressor) at the same dates, all strictly
    before [event_date - event_window_days], whatever the window; its
    intercept and slope are returned and stored.  For a window of at
    least one day the sample has at most [estimation_window_days] dates,
    all among the most recent [estimation_window_days] observations before
    that boundary. *)
Theorem estimation_window (self self' : EventStudy) (a b : float) :
  estimate_expected_return self = (Ok (a, b), self') ->
  exists stock market stock_returns market_returns,
    stock_data self = Some stock /\ market_data self = Some market
    /\ sm_ols_params (Pd.values stock_returns) (Pd.values market_returns)
       = Ok (a, b)
    /\ alpha self' = Some a /\ beta self' = Some b
    /\ Pd.index stock_returns = Pd.index market_returns
    /\ (forall tv, In tv stock_returns ->
          exists r, In r (df_rows stock)
                    /\ tv = (row_idx r, row_return r))
    /\ (forall tv, In tv market_returns ->
          exists r, In r (df_rows market)
                    /\ tv = (row_idx r, row_return r))
    /\ (forall t, In t (Pd.index stock_returns) ->
          date_of t < date_of (event_timestamp self)
                      - event_window_days self)
    /\ (0 < estimation_window_days self ->
        Z.of_nat (length stock_returns) <= estimation_window_days self
        /\ incl (Pd.index stock_returns)
                (lastn (Z.to_nat (estimation_window_days self))
                       (map row_idx (rows_before_window self stock)))).
Proof.
  intros H.
  destruct (estimate_ok _ _ _ _ H) as (sr & mr & Es & Eo & ->).
  destruct (estimation_sample_dates _ _ _ _ Es)
    as (stock & market & Hst & Hmk & Hidx & Hdates & Hsr & Hmr & Hlast).
  exists stock, market, sr, mr.
  repeat (split; [solve [auto]|]). intros Hn.
  destruct (estimation_sample_size _ _ _ _ Es Hn) as [Hsize _].
  split; [exact Hsize | now apply Hlast].
Qed.

(** C7.  At a window of zero days the slice [iloc[-0:]] is the whole
    frame: the fit is handed two observations where the window allows
    none, while at a window of one day the same rows give one. *)
Theorem zero_day_window_keeps_all :
  estimation_window_days (Ref.two_rows 0) = 0
  /\ (exists stock_returns market_returns,
        fst (estimation_sample (Ref.two_rows 0))
        = Ok (stock_returns, market_returns)
        /\ length stock_returns = 2%nat
        /\ ~ (Z.of_nat (length stock_returns)
              <= estimation_window_days (Ref.two_rows 0)))
  /\ (exists stock_returns market_returns,
        fst (estimation_sample (Ref.two_rows 1))
        = Ok (stock_returns, market_returns)
        /\ length stock_returns = 1%nat).
Proof.
  split; [reflexivity|]. split.
  - eexists. eexists. split; [vm_compute; reflexivity|].
    split; [reflexivity|].
    intros Hle. vm_compute in Hle. now apply Hle.
  - eexists. eexists. split; [vm_compute; reflexivity|]. reflexivity.
Qed.

End EstimationFit.

(** The window theorem at a run of the reference provider. *)
Lemma estimation_window_witness :
  let self := snd (@fetch_data Ref.libs Ref.short_window) in
  match @estimate_expected_return Ref.libs self with
  | (Ok (a, b), self') =>
      exists stock stock_returns,
        stock_data self = Some stock
        /\ estimation_window_days self
           < Z.of_nat (length (rows_before_window self stock))
        /\ Z.of_nat (length stock_returns) <= estimation_window_days self
        /\ forall t, In t (Pd.index stock_returns) ->
             date_of t < date_of (event_timestamp self)
                         - event_window_days self
  | _ => False
  end.
Proof.
  intros self.
  destruct (@estimate_expected_return Ref.libs self) as [[[a b]|e] self']
    eqn:E; [|vm_compute in E; discriminate E].
  destruct (@estimation_window Ref.libs self self' a b E)
    as (stock & market & sr & mr & Hst & _ & _ & _ & _ & _ & _ & _
        & Hdates & Hcount).
  assert (Hn : 0 < estimation_window_days self) by (vm_compute; reflexivity).
  exists stock, sr. split; [exact Hst|]. split.
  - vm_compute in Hst. injection Hst as <-. vm_compute. reflexivity.
  - split; [exact (proj1 (Hcount Hn)) | exact Hdates].
Defined.

(** ** The full analysis *)

Section FullAnalysis.

Context `{L : Libs}.

(** [fetch_data] catches everything: it answers a boolean. *)
Lemma fetch_data_returns (self : EventStudy) :
  exists b s1, fetch_data self = (Ok b, s1).
Proof.
  unfold fetch_data, try_except.
  match goal with
  | |- exists b s1, match ?X with _ => _ end = _ =>
      destruct X as [[b|e] s1]
  end; [exists b, s1 | exists false, s1]; reflexivity.
Qed.

(** A provider that raises makes the fetch report failure. *)
Lemma fetch_data_provider_raises (self : EventStudy) (e : string) :
  yf_history (ticker self)
             (date_of (event_timestamp self)
              - (estimation_window_days self + 20))
             (date_of (event_timestamp self) + (event_window_days self + 5))
  = Raised e ->
  fst (fetch_data self) = Ok false.
Proof.
  intros H. unfold fetch_data. unfold_monad. cbv beta iota zeta.
  rewrite H. reflexivity.
Qed.

Lemma run_full_analysis_eq (self : EventStudy) :
  run_full_analysis self
  = match fetch_data self with
    | (Ok true, s1) =>
        match analysis_steps s1 with
        | (Ok d, s2) => (Ok d, s2)
        | (Raised e, s2) =>
            (Ok (error_dict s2 ("Analysis failed: " ++ e)), s2)
        end
    | (Ok false, s1) => (Ok (error_dict s1 "Failed to fetch data"), s1)
    | (Raised e, s1) => (Raised e, s1)
    end.
Proof.
  unfold run_full_analysis. unfold bind at 1.
  destruct (fetch_data self) as [[[|]|e] s1]; cbn [negb];
    unfold_monad; try reflexivity.
Qed.

Lemma analysis_steps_eq (s1 : EventStudy) :
  analysis_steps s1
  = match estimate_expected_return s1 with
    | (Raised e, s2) => (Raised e, s2)
    | (Ok p, s2) =>
        match calculate_ar s2 with
        | (Raised e, s3) => (Raised e, s3)
        | (Ok series, s3) =>
            if Z.of_nat (length series) =? 0
            then (Ok (error_dict s3 "No data in event window"), s3)
            else
              match calculate_car None s3 with
              | (Raised e, s4) => (Raised e, s4)
              | (Ok c, s4) =>
                  let s5 := snd (statistical_test true s4) in
                  match ar s5 with
                  | None =>
                      (Raised
                         "TypeError: NoneType doesn't define __round__",
                       s5)
                  | Some event_ar =>
                      (Ok (FullResult
                             (full_result s5 (fst p) (snd p) c event_ar
                                (fst (statistical_test true s4))
                                (Z.of_nat (length series)))),
                       s5)
                  end
              end
        end
    end.
Proof.
  unfold analysis_steps. unfold bind at 1.
  destruct (estimate_expected_return s1) as [[p|e] s2]; [|reflexivity].
  unfold bind at 1.
  destruct (calculate_ar s2) as [[series|e] s3]; [|reflexivity].
  destruct (Z.of_nat (length series) =? 0); [reflexivity|].
  unfold bind at 1.
  destruct (calculate_car None s3) as [[c|e] s4]; [|reflexivity].
  unfold bind at 1.
  destruct (statistical_test true s4) as [tr s5]. cbn [fst snd].
  unfold_monad. destruct (ar s5); reflexivity.
Qed.

Lemma error_dict_is_error (self : EventStudy) (msg : string) :
  msg <> ""%string -> is_error_result (error_dict self msg).
Proof. intros H. cbn. repeat split. exact H. Qed.

(** C3.  [run_full_analysis] always returns a dictionary, never an
    exception; and whenever a stage fails the dictionary is the error
    one: a non-empty message with [ar], [car] and [confidence] at [0.0]
    and [is_significant] false. *)
Theorem failures_become_error_results (self : EventStudy) :
  (exists d self', run_full_analysis self = (Ok d, self'))
  /\ (stage_failure self ->
      exists d self',
        run_full_analysis self = (Ok d, self') /\ is_error_result d)
  /\ (forall e,
        yf_history (ticker self)
                   (date_of (event_timestamp self)
                    - (estimation_window_days self + 20))
                   (date_of (event_timestamp self)
                    + (event_window_days self + 5))
        = Raised e ->
        stage_failure self)
  /\ ((forall s1, fetch_data self <> (Ok true, s1)) -> stage_failure self).
Proof.
  split; [|split; [|split]].
  - rewrite run_full_analysis_eq.
    destruct (fetch_data_returns self) as (b & s1 & ->).
    destruct b; [|eauto].
    destruct (analysis_steps s1) as [[d|e] s2]; eauto.
  - intros Hf. rewrite run_full_analysis_eq.
    destruct Hf as [s1 Hfetch
                   |s1 s2 e Hfetch Hest
                   |s1 s2 s3 p e Hfetch Hest Har
                   |s1 s2 s3 p Hfetch Hest Har
                   |s1 s2 s3 s4 p series e Hfetch Hest Har Hcar
                   |s1 s2 s3 s4 p series c Hfetch Hest Har Hcar Hnone];
      rewrite Hfetch; try rewrite analysis_steps_eq;
      try rewrite Hest; try rewrite Har.
    + eexists. eexists. split; [reflexivity|].
      apply error_dict_is_error. discriminate.
    + eexists. eexists. split; [reflexivity|].
      apply error_dict_is_error. discriminate.
    + eexists. eexists. split; [reflexivity|].
      apply error_dict_is_error. discriminate.
    + cbn [length Z.of_nat Z.eqb].
      eexists. eexists. split; [reflexivity|].
      apply error_dict_is_error. discriminate.
    + destruct (Z.of_nat (length series) =? 0).
      * eexists. eexists. split; [reflexivity|].
        apply error_dict_is_error. discriminate.
      * rewrite Hcar. eexists. eexists. split; [reflexivity|].
        apply error_dict_is_error. discriminate.
    + destruct (Z.of_nat (length series) =? 0).
      * eexists. eexists. split; [reflexivity|].
        apply error_dict_is_error. discriminate.
      * rewrite Hcar. cbv zeta. rewrite Hnone.
        eexists. eexists. split; [reflexivity|].
        apply error_dict_is_error. discriminate.
  - intros e He.
    pose proof (fetch_data_provider_raises self e He) as Hf.
    destruct (fetch_data self) as [r s1] eqn:E. cbn [fst] in Hf. subst r.
    exact (fetch_failed self s1 E).
  - intros Hno. destruct (fetch_data_returns self) as (b & s1 & E).
    destruct b; [now elim (Hno s1) | exact (fetch_failed self s1 E)].
Qed.

End FullAnalysis.

(** ** The assembled result *)

Section Assembly.

Context `{L : Libs}.

Lemma estimate_sets_parameters (s1 s2 : EventStudy) (a b : float) :
  estimate_expected_return s1 = (Ok (a, b), s2) ->
  alpha s2 = Some a /\ beta s2 = Some b.
Proof.
  intros H. destruct (estimate_ok _ _ _ _ H) as (_ & _ & _ & _ & ->).
  split; reflexivity.
Qed.

Lemma calculate_ar_keeps_parameters (s2 s3 : EventStudy) (a b : float)
      (series : Series) :
  alpha s2 = Some a -> beta s2 = Some b ->
  calculate_ar s2 = (Ok series, s3) ->
  series <> [] ->
  alpha s3 = Some a /\ beta s3 = Some b.
Proof.
  intros Ha Hb H Hne. unfold calculate_ar in H. unfold_monad.
  cbv beta iota in H. rewrite Ha, Hb in H. cbv beta iota in H.
  in_range H. cbv beta iota zeta in H.
  destruct (stock_data s2) as [stock|]; [|discriminate].
  destruct (market_data s2) as [market|]; [|discriminate].
  match type of H with
  | context [if ?c then _ else _] => destruct c
  end; [injection H as H _; congruence|].
  repeat match type of H with
         | context [Frame.loc_return ?x ?y] =>
             destruct (Frame.loc_return x y); [|discriminate]
         end.
  cbv beta iota in H. rewrite Ha, Hb in H.
  injection H as _ <-. cbn [alpha beta set_ar set_ar_series].
  now split.
Qed.

Lemma statistical_test_state (use_robust : bool) (self : EventStudy)
      (series : Series) :
  ar_series self = Some series -> series <> [] ->
  snd (statistical_test use_robust self)
  = set_test (tr_t_statistic (fst (statistical_test use_robust self)))
             (tr_p_value (fst (statistical_test use_robust self))) self.
Proof.
  intros Hs Hne. unfold statistical_test. rewrite Hs.
  destruct series as [|x xs]; [congruence|].
  change (Z.of_nat (length (x :: xs)) =? 0) with false. cbv iota.
  destruct use_robust; reflexivity.
Qed.

(** A non-empty series returned by [calculate_ar] is stored, with an
    event-day value. *)
Lemma calculate_ar_stores (self self' : EventStudy) (series : Series) :
  calculate_ar self = (Ok series, self') ->
  series <> [] ->
  ar_series self' = Some series /\ exists v, ar self' = Some v.
Proof.
  intros H Hne. unfold calculate_ar in H. unfold_monad. cbv beta iota in H.
  match type of H with
  | (let (_, _) := ?X in _) = _ => destruct X as [[u|e] self1]
  end; [|discriminate].
  in_range H. cbv beta iota zeta in H.
  destruct (stock_data self1) as [stock|]; [|discriminate].
  destruct (market_data self1) as [market|]; [|discriminate].
  match type of H with
  | context [if ?c then _ else _] => destruct c
  end; [injection H as H _; congruence|].
  repeat match type of H with
         | context [Frame.loc_return ?x ?y] =>
             destruct (Frame.loc_return x y); [|discriminate]
         end.
  destruct (alpha self1) as [pa|]; [|discriminate].
  destruct (beta self1) as [pb|]; [|discriminate].
  injection H as Hs <-. cbn [ar ar_series set_ar set_ar_series].
  rewrite Hs. split; [reflexivity | eauto].
Qed.

(** With a stored series, [calculate_car()] sums it and stores the sum. *)
Lemma calculate_car_stored (self : EventStudy) (series : Series) :
  ar_series self = Some series ->
  calculate_car None self
  = (Ok (Pd.sum series), set_car (Some (Pd.sum series)) self).
Proof.
  intros Hs. unfold calculate_car. unfold_monad. rewrite Hs. rewrite Hs.
  reflexivity.
Qed.

(** What a completed analysis is made of. *)
Lemma success_inversion (self self' : EventStudy) (r : ResultDict) :
  run_full_analysis self = (Ok (FullResult r), self') ->
  exists a b series event_ar s3,
    let c := Pd.sum series in
    let tr := fst (statistical_test true (set_car (Some c) s3)) in
    series <> []
    /\ alpha s3 = Some a /\ beta s3 = Some b
    /\ ar s3 = Some event_ar /\ ar_series s3 = Some series
    /\ self' = set_test (tr_t_statistic tr) (tr_p_value tr)
                        (set_car (Some c) s3)
    /\ r = full_result self' a b c event_ar tr (Z.of_nat (length series)).
Proof.
  rewrite run_full_analysis_eq.
  destruct (fetch_data self) as [[[|]|e] s1]; try discriminate.
  rewrite analysis_steps_eq.
  destruct (estimate_expected_return s1) as [[[a b]|e] s2] eqn:Eest;
    [|discriminate].
  destruct (calculate_ar s2) as [[series|e] s3] eqn:Ear; [|discriminate].
  destruct (Z.eqb_spec (Z.of_nat (length series)) 0) as [E0|E0];
    [discriminate|].
  assert (Hne : series <> []) by (intros ->; now apply E0).
  destruct (calculate_ar_stores _ _ _ Ear Hne) as [Hser [v Har]].
  destruct (estimate_sets_parameters _ _ _ _ Eest) as [Ha Hb].
  destruct (calculate_ar_keeps_parameters _ _ _ _ _ Ha Hb Ear Hne)
    as [Ha3 Hb3].
  rewrite (calculate_car_stored _ _ Hser).
  set (s4 := set_car (Some (Pd.sum series)) s3) in *.
  assert (Hs4 : ar_series s4 = Some series) by exact Hser.
  pose proof (statistical_test_state true s4 series Hs4 Hne) as Hst.
  cbv zeta. rewrite Hst. cbn [ar set_test]. fold s4.
  change (ar s4) with (ar s3). rewrite Har.
  intros [= <- <-].
  eexists a, b, series, _, s3. cbv zeta. fold s4.
  repeat (split; [solve [eauto]|]). reflexivity.
Qed.

(** C8, as the code has it.  In a completed analysis [alpha], [ar] and
    [car] are rounded to 6 places, the two percentages to 4 and the
    confidence to 3; the p-value is handed on exactly as the test
    computed and stored it. *)
Theorem result_precision (self self' : EventStudy) (r : ResultDict) :
  run_full_analysis self = (Ok (FullResult r), self') ->
  exists a event_ar c p,
    alpha self' = Some a /\ ar self' = Some event_ar
    /\ car self' = Some c /\ p_value self' = Some p
    /\ r_alpha r = py_round a 6
    /\ r_ar r = py_round event_ar 6
    /\ r_car r = py_round c 6
    /\ r_ar_percentage r = py_round (event_ar * 100) 4
    /\ r_car_percentage r = py_round (c * 100) 4
    /\ r_confidence r = py_round (confidence_of p) 3
    /\ r_p_value r = p.
Proof.
  intros H.
  destruct (success_inversion _ _ _ H)
    as (a & b & series & event_ar & s3 & Hinv).
  cbv zeta in Hinv.
  destruct Hinv as (Hne & Ha & Hb & Har & Hser & Hself & Hr).
  set (c := Pd.sum series) in *.
  set (s4 := set_car (Some c) s3) in *.
  pose proof (statistical_test_confidence true s4) as Hconf.
  cbv zeta in Hconf.
  set (tr := fst (statistical_test true s4)) in *.
  exists a, event_ar, c, (tr_p_value tr).
  rewrite Hr. rewrite Hself.
  cbn [alpha ar car p_value set_test set_car full_result r_alpha r_ar r_car
       r_ar_percentage r_car_percentage r_confidence r_p_value].
  rewrite Hconf.
  repeat (split; [solve [auto]|]). reflexivity.
Qed.

Lemma starts_with_app (p a b : string) :
  starts_with p a = true -> starts_with p (a ++ b)%string = true.
Proof.
  revert a. induction p as [|c p IH]; intros a; [reflexivity|].
  destruct a as [|c' a]; cbn [starts_with append]; [discriminate|].
  intros H. apply andb_prop in H. destruct H as [-> H]. now apply IH.
Qed.

(** The summary opens with "Positive" for a positive event-day value and
    with "Negative" for every other one. *)
Lemma summary_opening (self : EventStudy) (event_ar : float) :
  ar self = Some event_ar ->
  starts_with (if (0 <? event_ar)%float
               then "Positive abnormal return of "
               else "Negative abnormal return of ")
              (_generate_summary self) = true.
Proof.
  intros Har. unfold _generate_summary. rewrite Har. cbv zeta.
  assert (H : starts_with
                (if (0 <? event_ar)%float
                 then "Positive abnormal return of "
                 else "Negative abnormal return of ")
                (Str.capitalize
                   (if (0 <? event_ar)%float then "positive" else "negative")
                 ++ " abnormal return of "
                 ++ format_fixed 2 (PrimFloat.abs (event_ar * 100))
                 ++ "%. ")%string = true).
  { destruct (0 <? event_ar)%float.
    - apply (starts_with_app _ "Positive abnormal return of "). reflexivity.
    - apply (starts_with_app _ "Negative abnormal return of "). reflexivity. }
  destruct (p_value self) as [p|];
    [destruct (p <? config.SIGNIFICANCE_LEVEL)%float|];
    destruct (filter_outliers 3 self);
    first [ exact H
          | apply starts_with_app; exact H
          | apply starts_with_app; apply starts_with_app; exact H ].
Qed.

(** C9.  When the event-day value of a completed analysis is exactly
    zero, [direction] is "neutral" while the summary opens with
    "Negative abnormal return of". *)
Theorem zero_is_neutral_but_negative (self self' : EventStudy)
        (r : ResultDict) (event_ar : float) :
  run_full_analysis self = (Ok (FullResult r), self') ->
  ar self' = Some event_ar ->
  (event_ar =? 0)%float = true ->
  r_direction r = "neutral"%string
  /\ starts_with "Negative abnormal return of " (r_summary r) = true.
Proof.
  intros H Har Hz.
  destruct (success_inversion _ _ _ H)
    as (a & b & series & event_ar' & s3 & Hinv).
  cbv zeta in Hinv.
  destruct Hinv as (Hne & Ha & Hb & Har3 & Hser & Hself & Hr).
  assert (event_ar' = event_ar).
  { rewrite Hself in Har. cbn [ar set_test set_car] in Har. congruence. }
  subst event_ar'. rewrite Hr. cbn [full_result r_direction r_summary].
  pose proof (FloatFacts.eqb_zero_not_pos _ Hz) as Hpos.
  pose proof (FloatFacts.eqb_zero_not_neg _ Hz) as Hneg.
  rewrite Hpos, Hneg. split; [reflexivity|].
  pose proof (summary_opening self' event_ar Har) as Hs.
  now rewrite Hpos in Hs.
Qed.

End Assembly.

(** ** Runs of the reference instance *)

(** C8 as stated, at a run: the p-value of the result is not a multiple of
    [0.001]; rounding it to 3 places gives another number. *)
Theorem p_value_is_not_rounded :
  match @run_full_analysis Ref.libs Ref.study with
  | (Ok (FullResult r), _) =>
      (r_p_value r =? 0.0076063019636838369)%float = true
      /\ (@py_round Ref.libs (r_p_value r) 3 =? 0.008)%float = true
      /\ ~ @rounded_to Ref.libs 3 (r_p_value r)
  | _ => False
  end.
Proof.
  destruct (@run_full_analysis Ref.libs Ref.study) as [[[e|r]|e] self']
    eqn:E; try (vm_compute in E; discriminate E).
  vm_compute in E. injection E as <- _.
  split; [vm_compute; reflexivity|].
  split; [vm_compute; reflexivity|].
  unfold rounded_to. intros H.
  apply (f_equal (fun x => PrimFloat.eqb x 0.008)) in H.
  vm_compute in H. discriminate H.
Qed.

(** C4 as stated, on a series with a missing value: the event falls after
    all the data and the stored value is a number, the mean of the two
    values that are present, while the arithmetic mean of all three values
    is not a number. *)
Theorem fallback_mean_skips_missing :
  exists series self' v,
    @calculate_ar Ref.libs (Ref.late_event nan) = (Ok series, self')
    /\ length series = 3%nat
    /\ first_entry_on_or_after (date_of (event_timestamp self')) series
       = None
    /\ ar self' = Some v
    /\ PrimFloat.is_nan v = false
    /\ PrimFloat.is_nan (arithmetic_mean (Pd.values series)) = true
    /\ ar self' <> Some (arithmetic_mean (Pd.values series)).
Proof.
  eexists. eexists. eexists.
  split; [vm_compute; reflexivity|].
  split; [reflexivity|].
  split; [vm_compute; reflexivity|].
  split; [vm_compute; reflexivity|].
  split; [vm_compute; reflexivity|].
  split; [vm_compute; reflexivity|].
  vm_compute. discriminate.
Qed.

(** C6 as stated, on two kinds of input.  A sub-window whose offset no
    [timedelta] holds, or whose end is no date, makes [calculate_car]
    raise; and on a series with a missing value the result is a number
    where the sum of all values is not. *)
Theorem car_is_not_always_the_sum :
  (exists e,
      fst (@calculate_car Ref.libs (Some (4000000000, 0))
             (Ref.seven_days Ref.test_positive_values 0.028))
      = Raised e)
  /\ (exists e,
        fst (@calculate_car Ref.libs (Some (800000, 0))
               (Ref.seven_days Ref.test_positive_values 0.028))
        = Raised e)
  /\ (exists c,
        fst (@calculate_car Ref.libs None Ref.with_missing) = Ok c
        /\ PrimFloat.is_nan c = false
        /\ PrimFloat.is_nan
             (Np.sum (Pd.values (observations Ref.with_missing))) = true).
Proof.
  split; [eexists; vm_compute; reflexivity|].
  split; [eexists; vm_compute; reflexivity|].
  eexists. repeat split; vm_compute; reflexivity.
Qed.

Lemma robust_statistic_witness :
  let self := Ref.seven_days Ref.test_positive_values 0.028 in
  let series := observations self in
  let v := Pd.values series in
  let n := Z.of_nat (length series) in
  let t := (Np.median v
            / ((1.4826 * MAD v) / PrimFloat.sqrt (F.of_Z n)))%float in
  let r := fst (@statistical_test Ref.libs true self) in
  (0 <? MAD v)%float = true
  /\ tr_t_statistic r = t
  /\ tr_p_value r
     = (2 * (1 - @Scipy.t_cdf Ref.libs (PrimFloat.abs t) (n - 1)))%float
  /\ tr_method r = Some "robust"%string.
Proof.
  intros self series v n t r.
  assert (Hmad : (0 <? MAD v)%float = true) by (vm_compute; reflexivity).
  split; [exact Hmad|].
  apply (@robust_statistic Ref.libs self series).
  - reflexivity.
  - discriminate.
  - exact Hmad.
Defined.

Lemma car_is_sum_witness :
  let self := Ref.holding 737333 737327 Ref.test_car_values None in
  let series := observations self in
  let event_date := date_of (event_timestamp self) in
  @calculate_car Ref.libs None self
  = (Ok (Pd.sum series), set_car (Some (Pd.sum series)) self)
  /\ (let window :=
        entries_between (event_date - 1) (event_date + 2) series in
      @calculate_car Ref.libs (Some (1, 2)) self
      = (Ok (Pd.sum window), set_car (Some (Pd.sum window)) self))
  /\ Pd.sum series = Np.sum (Pd.values series).
Proof.
  intros self series event_date.
  destruct (@car_is_sum Ref.libs self series eq_refl) as (H1 & H2 & _ & H3).
  split; [exact H1|]. split.
  - apply H2; unfold valid_offset, valid_date; vm_compute;
      repeat split; discriminate.
  - apply H3. vm_compute. reflexivity.
Defined.

Lemma event_day_ar_witness :
  (let self := snd (@estimate_expected_return Ref.libs
                      (snd (@fetch_data Ref.libs Ref.study))) in
   match @calculate_ar Ref.libs self with
   | (Ok series, self') =>
       ar self'
       = Some match first_entry_on_or_after
                      (date_of (event_timestamp self')) series with
              | Some entry => snd entry
              | None => Pd.mean series
              end
   | _ => False
   end)
  /\ match @calculate_ar Ref.libs (Ref.late_event 0.003) with
     | (Ok series, self') =>
         first_entry_on_or_after (date_of (event_timestamp self')) series
         = None
         /\ ar self' = Some (Pd.mean series)
         /\ Pd.mean series = arithmetic_mean (Pd.values series)
     | _ => False
     end.
Proof.
  split.
  - intros self.
    destruct (@calculate_ar Ref.libs self) as [[series|e] self'] eqn:E;
      [|vm_compute in E; discriminate E].
    assert (Hne : series <> []).
    { intros ->. vm_compute in E. discriminate E. }
    exact (proj1 (proj2 (@event_day_ar Ref.libs self self' series E Hne))).
  - destruct (@calculate_ar Ref.libs (Ref.late_event 0.003))
      as [[series|e] self'] eqn:E; [|vm_compute in E; discriminate E].
    assert (Hne : series <> []).
    { intros ->. vm_compute in E. discriminate E. }
    destruct (@event_day_ar Ref.libs _ self' series E Hne)
      as (_ & Har & Hmean).
    vm_compute in E. injection E as <- <-.
    split; [vm_compute; reflexivity|].
    split; [exact Har|]. apply Hmean. vm_compute. reflexivity.
Defined.

Lemma result_precision_witness :
  match @run_full_analysis Ref.libs Ref.study with
  | (Ok (FullResult r), self') =>
      exists a event_ar c p,
        alpha self' = Some a /\ ar self' = Some event_ar
        /\ car self' = Some c /\ p_value self' = Some p
        /\ r_alpha r = Ref.round a 6
        /\ r_ar r = Ref.round event_ar 6
        /\ r_car r = Ref.round c 6
        /\ r_ar_percentage r = Ref.round (event_ar * 100) 4
        /\ r_car_percentage r = Ref.round (c * 100) 4
        /\ r_confidence r = Ref.round (confidence_of p) 3
        /\ r_p_value r = p
  | _ => False
  end.
Proof.
  destruct (@run_full_analysis Ref.libs Ref.study) as [[[e|r]|e] self']
    eqn:E; try (vm_compute in E; discriminate E).
  exact (@result_precision Ref.libs Ref.study self' r E).
Defined.

Lemma zero_is_neutral_but_negative_witness :
  match @run_full_analysis Ref.libs Ref.index_study with
  | (Ok (FullResult r), self') =>
      ar self' = Some 0%float
      /\ r_direction r = "neutral"%string
      /\ starts_with "Negative abnormal return of " (r_summary r) = true
  | _ => False
  end.
Proof.
  destruct (@run_full_analysis Ref.libs Ref.index_study)
    as [[[e|r]|e] self'] eqn:E; try (vm_compute in E; discriminate E).
  assert (Har : ar self' = Some 0%float).
  { vm_compute in E. injection E as _ <-. reflexivity. }
  split; [exact Har|].
  exact (@zero_is_neutral_but_negative Ref.libs Ref.index_study self' r
           0%float E Har eq_refl).
Defined.

(** The scenarios of the test suite. *)

Example outlier_detected :
  filter_outliers 3 (Ref.seven_days Ref.test_outlier_values 0.15) = true.
Proof. vm_compute. reflexivity. Qed.

Example no_outlier :
  filter_outliers 3 (Ref.seven_days Ref.test_normal_values 0.002) = false.
Proof. vm_compute. reflexivity. Qed.

Example zero_variance :
  fst (@statistical_test Ref.libs true
         (Ref.seven_days (repeat 0%float 7) 0))
  = mkTestResult 0 1 false 0 (Some "robust"%string).
Proof. vm_compute. reflexivity. Qed.

Example car_of_test_values :
  fst (@calculate_car Ref.libs None
         (Ref.holding 737333 737327 Ref.test_car_values None))
  = Ok (Np.sum Ref.test_car_values).
Proof. vm_compute. reflexivity. Qed.

(** From eight values on the order of the additions is numpy's, not the
    order of the array. *)
Example sum_of_eight_tenths :
  Np.sum (repeat 0.1%float 8) = 0.8%float
  /\ fold_left PrimFloat.add (repeat 0.1%float 8) 0%float
     = 0.79999999999999993%float
  /\ Pd.mean (combine (map (fun i => mkTimestamp i 0) [1; 2; 3; 4; 5; 6; 7; 8])
                      (repeat 0.1%float 8)) = 0.1%float.
Proof. repeat split; vm_compute; reflexivity. Qed.

Example unknown_symbol :
  exists e,
    fst (@run_full_analysis Ref.libs
           (EventStudy_init (mkTimestamp 741351 0) "INVALIDTICKER" 252 3
                            "SPY"))
    = Ok (ErrorResult e)
    /\ e_error e = "Failed to fetch data"%string
    /\ e_ar e = 0%float /\ e_confidence e = 0%float.
Proof. eexists. repeat split; vm_compute; reflexivity. Qed.

Example provider_down :
  exists e,
    fst (@run_full_analysis Ref.libs
           (EventStudy_init (mkTimestamp Ref.wednesday 0) "DOWN" 252 3 "SPY"))
    = Ok (ErrorResult e) /\ e_error e = "Failed to fetch data"%string.
Proof. eexists. split; vm_compute; reflexivity. Qed.

(** * Further properties *)

(** ** Fetching *)

Section Fetching.

Context `{L : Libs}.

Lemma pct_change_index (prev : option float) (rows : list Row) :
  Frame.index (Frame.pct_change_from prev rows) = Frame.index rows.
Proof.
  revert prev. induction rows as [|r rows IH]; intros prev; [reflexivity|].
  cbn [Frame.pct_change_from Frame.index map row_idx].
  f_equal. apply IH.
Qed.

Lemma with_returns_index (rows : list (Timestamp * float)) :
  Frame.index (df_rows (Frame.with_returns (Frame.raw rows))) = map fst rows.
Proof.
  unfold Frame.with_returns, Frame.raw. cbn [df_rows].
  rewrite pct_change_index. unfold Frame.index. rewrite map_map.
  reflexivity.
Qed.

Lemma frame_loc_ok (df df2 : DataFrame) (labels : list Timestamp) :
  Frame.loc df labels = Ok df2 ->
  df_has_return df2 = df_has_return df
  /\ Frame.index (df_rows df2) = labels
  /\ incl (df_rows df2) (df_rows df).
Proof.
  unfold Frame.loc.
  destruct (Frame.loc_rows (df_rows df) labels) as [rs|] eqn:E;
    [|discriminate].
  intros [= <-]. cbn [df_rows df_has_return].
  destruct (loc_rows_ok _ _ _ E) as [Hm Hi]. now repeat split.
Qed.

Lemma dropna_return_ok (df df2 : DataFrame) :
  Frame.dropna_return df = Ok df2 ->
  df_has_return df2 = true
  /\ forall r, In r (df_rows df2) <->
       In r (df_rows df) /\ PrimFloat.is_nan (row_return r) = false.
Proof.
  unfold Frame.dropna_return. destruct (df_has_return df); [|discriminate].
  intros [= <-]. cbn [df_rows df_has_return]. split; [reflexivity|].
  intros r. rewrite filter_In. rewrite negb_true_iff. reflexivity.
Qed.

Lemma frame_not_empty (rows : list (Timestamp * float)) :
  Frame.empty (Frame.raw rows) = false -> rows <> [].
Proof. now intros H ->. Qed.

(** X1.  [fetch_data] answers [True] only after both provider calls gave a
    non-empty frame; the two stored frames then carry the [return] column
    without a missing value, hold only labels present in both provider
    frames, and the instrument frame has at least 50 rows.  The
    constructor arguments of the object are as before. *)
Theorem fetch_success (self s1 : EventStudy) :
  fetch_data self = (Ok true, s1) ->
  exists stock market st mk,
    yf_history (ticker self)
               (date_of (event_timestamp self)
                - (estimation_window_days self + 20))
               (date_of (event_timestamp self) + (event_window_days self + 5))
    = Ok stock
    /\ yf_history (market_ticker self)
                  (date_of (event_timestamp self)
                   - (estimation_window_days self + 20))
                  (date_of (event_timestamp self)
                   + (event_window_days self + 5))
       = Ok market
    /\ stock <> [] /\ market <> []
    /\ stock_data s1 = Some st /\ market_data s1 = Some mk
    /\ aligned_frame st stock market /\ aligned_frame mk stock market
    /\ 50 <= Frame.len st
    /\ same_config self s1.
Proof.
  intros H. unfold fetch_data, try_except in H.
  match type of H with
  | match ?X with _ => _ end = _ => destruct X as [[b|e] s] eqn:E
  end; [|discriminate].
  injection H as -> ->. unfold_monad. cbv beta iota zeta in E.
  destruct (yf_history (ticker self) _ _) as [stock|] eqn:Es; [|discriminate].
  destruct (Frame.empty (Frame.raw stock)) eqn:Ee; cbv beta iota in E;
    [discriminate|].
  destruct (yf_history (market_ticker self) _ _) as [market|] eqn:Em;
    [|discriminate].
  destruct (Frame.empty (Frame.raw market)) eqn:Eme; cbv beta iota in E;
    [discriminate|].
  destruct (Frame.loc (Frame.with_returns (Frame.raw stock)) _)
    as [stock2|] eqn:El1; [|discriminate].
  destruct (Frame.loc (Frame.with_returns (Frame.raw market)) _)
    as [market2|] eqn:El2; [|discriminate].
  destruct (Frame.dropna_return stock2) as [stock3|] eqn:Ed1; [|discriminate].
  destruct (Frame.dropna_return market2) as [market3|] eqn:Ed2;
    [|discriminate].
  injection E as Hlen <-.
  exists stock, market, stock3, market3.
  destruct (frame_loc_ok _ _ _ El1) as (_ & Hi1 & _).
  destruct (frame_loc_ok _ _ _ El2) as (_ & Hi2 & _).
  destruct (dropna_return_ok _ _ Ed1) as [Hr1 Hd1].
  destruct (dropna_return_ok _ _ Ed2) as [Hr2 Hd2].
  assert (Hcommon : forall t,
    In t (Pd.intersection
            (Frame.index (df_rows (Frame.with_returns (Frame.raw stock))))
            (Frame.index (df_rows (Frame.with_returns (Frame.raw market)))))
    -> In t (map fst stock) /\ In t (map fst market)).
  { intros t Ht. unfold Pd.intersection in Ht. apply filter_In in Ht.
    rewrite !with_returns_index in Ht. destruct Ht as [Hs Hm].
    split; [exact Hs|]. apply existsb_exists in Hm.
    destruct Hm as (t' & Hin & Heq). apply Timestamp_eqb_eq in Heq.
    now subst t'. }
  split; [reflexivity|]. split; [reflexivity|].
  split; [now apply frame_not_empty|]. split; [now apply frame_not_empty|].
  split; [reflexivity|]. split; [reflexivity|].
  split; [|split; [|split]].
  - split; [exact Hr1|]. intros r Hr. apply Hd1 in Hr. destruct Hr as [Hr Hn].
    split; [exact Hn|]. apply Hcommon. rewrite <- Hi1.
    unfold Frame.index. now apply in_map.
  - split; [exact Hr2|]. intros r Hr. apply Hd2 in Hr. destruct Hr as [Hr Hn].
    split; [exact Hn|]. apply Hcommon. rewrite <- Hi2.
    unfold Frame.index. now apply in_map.
  - now apply Z.leb_le.
  - repeat split.
Qed.

(** X2.  How [fetch_data] fails.  A provider that raises on the instrument
    leaves the object untouched; an empty instrument frame is stored and the
    market data is left as it was; a provider that raises on the market
    index leaves the instrument frame stored without a [return] column.
    Each time the answer is [False], not an exception. *)
Theorem fetch_failures (self : EventStudy) :
  let start :=
    date_of (event_timestamp self) - (estimation_window_days self + 20) in
  let stop := date_of (event_timestamp self) + (event_window_days self + 5) in
  (forall e,
     yf_history (ticker self) start stop = Raised e ->
     fetch_data self = (Ok false, self))
  /\ (yf_history (ticker self) start stop = Ok [] ->
      fetch_data self
      = (Ok false, set_stock_data (Some (mkDataFrame [] false)) self))
  /\ (forall stock e,
        yf_history (ticker self) start stop = Ok stock -> stock <> [] ->
        yf_history (market_ticker self) start stop = Raised e ->
        fetch_data self
        = (Ok false, set_stock_data (Some (Frame.raw stock)) self)
        /\ df_has_return (Frame.raw stock) = false)
  /\ (forall stock,
        yf_history (ticker self) start stop = Ok stock -> stock <> [] ->
        yf_history (market_ticker self) start stop = Ok [] ->
        fst (fetch_data self) = Ok false).
Proof.
  intros start stop. subst start stop.
  split; [|split; [|split]].
  - intros e He. unfold fetch_data. unfold_monad. cbv beta iota zeta.
    rewrite He. reflexivity.
  - intros He. unfold fetch_data. unfold_monad. cbv beta iota zeta.
    rewrite He. reflexivity.
  - intros stock e Hs Hne He. split; [|reflexivity].
    unfold fetch_data. unfold_monad. cbv beta iota zeta.
    rewrite Hs. destruct stock as [|x xs]; [congruence|].
    change (Frame.empty (Frame.raw (x :: xs))) with false. cbv beta iota.
    rewrite He. reflexivity.
  - intros stock Hs Hne He.
    unfold fetch_data. unfold_monad. cbv beta iota zeta.
    rewrite Hs. destruct stock as [|x xs]; [congruence|].
    change (Frame.empty (Frame.raw (x :: xs))) with false. cbv beta iota.
    rewrite He. reflexivity.
Qed.

End Fetching.

(** ** Estimation and abnormal returns *)

Section AbnormalReturns.

Context `{L : Libs}.

(** X3.  [estimate_expected_return] changes nothing but [alpha] and
    [beta].  When it returns, both are set to the pair it returns.  When it
    raises, the object is as it was, unless the fit came back with a single
    parameter: [alpha] is assigned before [params[1]] raises, so that
    parameter stays in [alpha] and [beta] keeps its old value. *)
Theorem estimate_touches_parameters_only (self self' : EventStudy)
        (r : res (float * float)) :
  estimate_expected_return self = (r, self') ->
  match r with
  | Ok (a, b) =>
      self' = set_alpha_beta a b self
      /\ alpha self' = Some a /\ beta self' = Some b
  | Raised _ =>
      self' = self
      \/ exists stock_returns market_returns a,
           estimation_sample self
           = (Ok (stock_returns, market_returns), self)
           /\ sm_ols_fit (Pd.values stock_returns)
                         (Pd.values market_returns) = Ok [a]
           /\ self' = set_alpha (Some a) self
           /\ alpha self' = Some a /\ beta self' = beta self
  end
  /\ stock_data self' = stock_data self
  /\ market_data self' = market_data self
  /\ ar_series self' = ar_series self /\ ar self' = ar self
  /\ car self' = car self /\ same_config self self'.
Proof.
  intros H. destruct r as [[a b]|e].
  - destruct (estimate_ok _ _ _ _ H) as (_ & _ & _ & _ & ->).
    now repeat split.
  - destruct (estimate_raised _ _ _ H) as [-> | (sr & mr & a & Es & Ef & ->)].
    + split; [now left|]. now repeat split.
    + split; [|now repeat split].
      right. exists sr, mr, a. now repeat split.
Qed.

(** X4.  Without fetched data [estimate_expected_return] raises the
    [ValueError] of line 145; so do [calculate_ar], when a parameter is
    still unset, and then [calculate_car], when no series is stored.  The
    object is left as it was. *)
Theorem methods_require_data (self : EventStudy) :
  stock_data self = None \/ market_data self = None ->
  let msg := "Data not fetched. Call fetch_data() first."%string in
  estimate_expected_return self = (Raised msg, self)
  /\ (alpha self = None \/ beta self = None ->
      calculate_ar self = (Raised msg, self)
      /\ (ar_series self = None ->
          forall window, calculate_car window self = (Raised msg, self))).
Proof.
  intros Hd msg.
  assert (He : estimate_expected_return self = (Raised msg, self)).
  { unfold estimate_expected_return, estimation_sample. unfold_monad.
    destruct Hd as [-> | ->]; [reflexivity|].
    destruct (stock_data self); reflexivity. }
  split; [exact He|]. intros Hp.
  assert (Ha : calculate_ar self = (Raised msg, self)).
  { unfold calculate_ar. unfold bind at 1. unfold get at 1.
    cbv beta iota. unfold bind at 1.
    destruct Hp as [Hn | Hn]; rewrite Hn.
    - unfold bind at 1. rewrite He. reflexivity.
    - destruct (alpha self); unfold bind at 1; rewrite He; reflexivity. }
  split; [exact Ha|]. intros Hs window.
  unfold calculate_car. unfold bind at 1. unfold get at 1. cbv beta iota.
  rewrite Hs. unfold bind at 1. unfold bind at 1. rewrite Ha. reflexivity.
Qed.

(** X5.  Once [alpha] and [beta] are set, [calculate_ar] does not fit the
    regression again and calls no library: it computes the same with any
    libraries, and the two parameters stay as they were. *)
Theorem calculate_ar_reuses_parameters (L1 L2 : Libs) (self : EventStudy)
        (a b : float) :
  alpha self = Some a -> beta self = Some b ->
  @calculate_ar L1 self = @calculate_ar L2 self
  /\ alpha (snd (@calculate_ar L1 self)) = Some a
  /\ beta (snd (@calculate_ar L1 self)) = Some b.
Proof.
  intros Ha Hb.
  assert (E : forall L0 : Libs, @calculate_ar L0 self = @calculate_ar L1 self).
  { intros L0. unfold calculate_ar. unfold_monad. cbv beta iota zeta.
    rewrite Ha, Hb. cbv beta iota. reflexivity. }
  split; [now rewrite (E L2)|].
  unfold calculate_ar. unfold_monad. cbv beta iota zeta.
  rewrite Ha, Hb. cbv beta iota.
  destruct (Datetime.minus_days _ _); [|now split].
  destruct (Datetime.plus_days _ _); [|now split].
  cbv beta iota.
  destruct (stock_data self); [|now split].
  destruct (market_data self); [|now split].
  match goal with
  | |- context [if ?c then _ else _] => destruct c
  end; [now split|].
  repeat match goal with
         | |- context [Frame.loc_return ?x ?y] =>
             destruct (Frame.loc_return x y)
         end; cbv beta iota; rewrite ?Ha, ?Hb; now split.
Qed.

Lemma loc_affine (a b : float) (mr : Series) (t : Timestamp) :
  Pd.loc (Series_affine a b mr) t
  = option_map (fun m => (a + b * m)%float) (Pd.loc mr t).
Proof.
  induction mr as [|[t' m] mr IH]; [reflexivity|].
  cbn [Series_affine map Pd.loc fst snd].
  destruct (Timestamp_eqb t' t); [reflexivity | exact IH].
Qed.

Lemma loc_some_in (s : Series) (t : Timestamp) (w : float) :
  Pd.loc s t = Some w -> In (t, w) s.
Proof.
  induction s as [|[t' v] s IH]; cbn [Pd.loc]; [discriminate|].
  destruct (Timestamp_eqb t' t) eqn:E.
  - intros [= ->]. apply Timestamp_eqb_eq in E. subst. now left.
  - intros H. right. now apply IH.
Qed.

Lemma loc_of_label (s : Series) (t : Timestamp) :
  In t (Pd.index s) -> exists w, Pd.loc s t = Some w.
Proof.
  induction s as [|[t' v] s IH]; cbn [Pd.index map fst Pd.loc]; [easy|].
  intros [->|Hin].
  - rewrite Timestamp_eqb_refl. now exists v.
  - destruct (Timestamp_eqb t' t); [now exists v | now apply IH].
Qed.

(** What [calculate_ar] does once the parameters are there: the state [s1]
    it works on, the common dates, and the series it builds and stores. *)
Lemma calculate_ar_inversion (self self' : EventStudy) (series : Series) :
  calculate_ar self = (Ok series, self') ->
  exists s1 a b stock market,
    (s1 = self \/ s1 = set_alpha_beta a b self)
    /\ alpha s1 = Some a /\ beta s1 = Some b
    /\ stock_data s1 = Some stock /\ market_data s1 = Some market
    /\ (valid_offset (event_window_days s1)
        /\ valid_date (window_start s1) /\ valid_date (window_end s1))
    /\ let in_window := fun d =>
         (d >=? window_start s1) && (d <=? window_end s1) in
       let event_stock := Frame.where_date in_window stock in
       let event_market := Frame.where_date in_window market in
       let common_dates :=
         Pd.intersection (Frame.index (df_rows event_stock))
                         (Frame.index (df_rows event_market)) in
       (common_dates = [] /\ series = [] /\ self' = s1)
       \/ (common_dates <> []
           /\ exists sr mr,
                Frame.loc_return event_stock common_dates = Ok sr
                /\ Frame.loc_return event_market common_dates = Ok mr
                /\ series = Series_sub sr (Series_affine a b mr)
                /\ self'
                   = set_ar
                       (Some match first_on_or_after
                                     (date_of (event_timestamp s1))
                                     (Pd.index series) series with
                             | Some v => v
                             | None => Pd.mean series
                             end)
                       (set_ar_series (Some series) s1)).
Proof.
  intros H. unfold calculate_ar in H. unfold bind at 1 in H.
  unfold get at 1 in H. cbv beta iota in H. unfold bind at 1 in H.
  match type of H with
  | (let (_, _) := ?X in _) = _ => destruct X as [[[]|e] s1] eqn:E
  end; [|discriminate].
  assert (Hpre : exists a b,
    (s1 = self \/ s1 = set_alpha_beta a b self)
    /\ alpha s1 = Some a /\ beta s1 = Some b).
  { assert (Hest : (estimate_expected_return;;; ret tt) self = (Ok tt, s1) ->
                   exists a b, s1 = set_alpha_beta a b self).
    { unfold bind, ret.
      destruct (estimate_expected_return self) as [[[a b]|e] s] eqn:Ee;
        [|discriminate].
      intros [= <-]. exists a, b.
      now destruct (estimate_ok _ _ _ _ Ee) as (_ & _ & _ & _ & ->). }
    destruct (alpha self) as [a|] eqn:Ha.
    - destruct (beta self) as [b|] eqn:Hb.
      + injection E as <-. exists a, b. now repeat split; auto.
      + destruct (Hest E) as (a' & b' & ->).
        exists a', b'. now repeat split; auto.
    - destruct (Hest E) as (a' & b' & ->).
      exists a', b'. now repeat split; auto. }
  destruct Hpre as (a & b & Hs1 & Ha & Hb).
  clear E. unfold_monad. cbv beta iota zeta in H.
  in_range H. cbv beta iota zeta in H.
  exists s1, a, b.
  destruct (stock_data s1) as [stock|]; [|discriminate].
  destruct (market_data s1) as [market|]; [|discriminate].
  exists stock, market.
  repeat (split; [solve [auto]|]).
  unfold window_start, window_end. cbv zeta.
  match type of H with
  | context [Pd.intersection ?x ?y] => set (common := Pd.intersection x y) in *
  end.
  destruct (Z.eqb_spec (Z.of_nat (length common)) 0) as [E0|E0].
  - left. injection H as <- <-.
    destruct common; [now repeat split | discriminate].
  - right. split; [now intros ->|].
    cbv beta iota in H.
    match type of H with
    | context [Frame.loc_return ?x common] =>
        destruct (Frame.loc_return x common) as [sr|]; [|discriminate]
    end.
    match type of H with
    | context [Frame.loc_return ?x common] =>
        destruct (Frame.loc_return x common) as [mr|]; [|discriminate]
    end.
    rewrite Ha, Hb in H. exists sr, mr.
    injection H as <- <-. now repeat split.
Qed.

Lemma series_sub_in (sr exp : Series) (t : Timestamp) (v : float) :
  In (t, v) (Series_sub sr exp) ->
  exists w, In (t, w) sr
            /\ v = match Pd.loc exp t with
                   | Some e => (w - e)%float
                   | None => nan
                   end.
Proof.
  unfold Series_sub. intros H. apply in_map_iff in H.
  destruct H as ([t' w] & [= <- <-] & Hin). now exists w.
Qed.

Lemma series_sub_index (sr exp : Series) :
  Pd.index (Series_sub sr exp) = Pd.index sr.
Proof.
  unfold Series_sub, Pd.index. rewrite map_map. reflexivity.
Qed.

Lemma where_date_in (p : Z -> bool) (df : DataFrame) (r : Row) :
  In r (df_rows (Frame.where_date p df)) ->
  In r (df_rows df) /\ p (date_of (row_idx r)) = true.
Proof.
  unfold Frame.where_date. cbn [df_rows]. intros H.
  now apply filter_In in H.
Qed.

Lemma same_config_set_alpha_beta (a b : float) (self : EventStudy) :
  same_config self (set_alpha_beta a b self).
Proof. now repeat split. Qed.

(** The entries of the series [calculate_ar] returns. *)
Lemma calculate_ar_entries (self self' : EventStudy) (series : Series) :
  calculate_ar self = (Ok series, self') ->
  exists a b stock market,
    alpha self' = Some a /\ beta self' = Some b
    /\ stock_data self' = Some stock /\ market_data self' = Some market
    /\ same_config self self'
    /\ forall t v, In (t, v) series ->
         window_start self <= date_of t <= window_end self
         /\ exists rs rm,
              In rs (df_rows stock) /\ In rm (df_rows market)
              /\ row_idx rs = t /\ row_idx rm = t
              /\ v = (row_return rs - (a + b * row_return rm))%float.
Proof.
  intros H.
  destruct (calculate_ar_inversion _ _ _ H)
    as (s1 & a & b & stock & market & Hs1 & Ha & Hb & Hst & Hmk & Hrange
        & Hcases).
  cbv zeta in Hcases.
  assert (Hcfg : same_config self s1).
  { destruct Hs1 as [-> | ->]; now repeat split. }
  exists a, b, stock, market.
  destruct Hcases as [(_ & -> & ->) | (Hne & sr & mr & Esr & Emr & Hser & ->)].
  - split; [exact Ha|]. split; [exact Hb|]. split; [exact Hst|].
    split; [exact Hmk|]. split; [exact Hcfg|]. intros t v [].
  - split; [exact Ha|]. split; [exact Hb|]. split; [exact Hst|].
    split; [exact Hmk|]. split; [exact Hcfg|].
    intros t v Hin. rewrite Hser in Hin.
    destruct (series_sub_in _ _ _ _ Hin) as (w & Hw & ->).
    destruct (loc_return_ok _ _ _ Esr) as [Hisr Hrsr].
    destruct (loc_return_ok _ _ _ Emr) as [Himr Hrmr].
    destruct (Hrsr _ Hw) as (rs & Hrs & [= Hts ->]).
    assert (Htm : In t (Pd.index mr)).
    { rewrite Himr, <- Hisr. unfold Pd.index.
      change t with (fst (t, row_return rs)). now apply in_map. }
    destruct (loc_of_label _ _ Htm) as (m & Hm).
    rewrite loc_affine, Hm. cbn [option_map].
    destruct (Hrmr _ (loc_some_in _ _ _ Hm)) as (rm & Hrm & [= Htm' ->]).
    apply where_date_in in Hrs. destruct Hrs as [Hrs Hwin].
    apply where_date_in in Hrm. destruct Hrm as [Hrm _].
    destruct Hcfg as (Hts1 & _ & _ & Hw1 & _).
    split.
    + apply andb_prop in Hwin. destruct Hwin as [Hlo Hhi].
      rewrite Z.geb_leb in Hlo. apply Z.leb_le in Hlo, Hhi.
      unfold window_start, window_end in *.
      rewrite Hts1, Hw1, Hts. lia.
    + exists rs, rm. now repeat split.
Qed.

(** [calculate_ar] returns only when its window is a range of dates. *)
Lemma calculate_ar_in_range (self self' : EventStudy) (series : Series) :
  calculate_ar self = (Ok series, self') ->
  valid_offset (event_window_days self)
  /\ valid_date (window_start self) /\ valid_date (window_end self).
Proof.
  intros H.
  destruct (calculate_ar_inversion _ _ _ H)
    as (s1 & a & b & stock & market & Hs1 & _ & _ & _ & _ & Hrange & _).
  destruct Hs1 as [-> | ->]; exact Hrange.
Qed.

(** X6.  Every entry of the series [calculate_ar] returns is dated within
    [[event_date - event_window_days, event_date + event_window_days]],
    at a label both frames have, and its value is the instrument's return
    minus [alpha + beta * market return] at that label, with the stored
    parameters. *)
Theorem abnormal_return_values (self self' : EventStudy) (series : Series) :
  calculate_ar self = (Ok series, self') ->
  exists a b stock market,
    alpha self' = Some a /\ beta self' = Some b
    /\ stock_data self' = Some stock /\ market_data self' = Some market
    /\ same_config self self'
    /\ forall t v, In (t, v) series ->
         window_start self <= date_of t <= window_end self
         /\ exists rs rm,
              In rs (df_rows stock) /\ In rm (df_rows market)
              /\ row_idx rs = t /\ row_idx rm = t
              /\ v = (row_return rs - (a + b * row_return rm))%float.
Proof. exact (calculate_ar_entries self self' series). Qed.

(** An empty series comes from an empty window only, and nothing is
    stored then. *)
Lemma calculate_ar_empty (self self' : EventStudy) :
  calculate_ar self = (Ok [], self') ->
  ar_series self' = ar_series self /\ ar self' = ar self
  /\ car self' = car self.
Proof.
  intros H.
  destruct (calculate_ar_inversion _ _ _ H)
    as (s1 & a & b & stock & market & Hs1 & Ha & Hb & Hst & Hmk & Hrange
        & Hcases).
  cbv zeta in Hcases.
  destruct Hcases as [(_ & _ & ->) | (Hne & sr & mr & Esr & Emr & Hser & _)].
  - destruct Hs1 as [-> | ->]; now repeat split.
  - exfalso. apply Hne.
    destruct (loc_return_ok _ _ _ Esr) as [Hisr _].
    rewrite <- Hisr, <- (series_sub_index sr (Series_affine a b mr)).
    now rewrite <- Hser.
Qed.

(** X7.  When the event window holds no common trading day,
    [calculate_ar] returns the empty series and stores nothing: [ar_series],
    [ar] and [car] are as before.  On an object without a stored series
    [calculate_car] then raises, with or without a sub-window, instead of
    returning a number. *)
Theorem empty_window_stores_nothing (self self' : EventStudy) :
  calculate_ar self = (Ok [], self') ->
  ar_series self' = ar_series self /\ ar self' = ar self
  /\ car self' = car self
  /\ (ar_series self = None ->
      forall window, exists e, calculate_car window self = (Raised e, self')).
Proof.
  intros H. destruct (calculate_ar_empty _ _ H) as (Hs & Ha & Hc).
  repeat (split; [assumption|]).
  intros Hnone window. unfold calculate_car. unfold bind at 1.
  unfold get at 1. cbv beta iota. rewrite Hnone.
  unfold bind at 1. unfold bind at 1. rewrite H. unfold ret.
  unfold_monad. cbv beta iota.
  destruct window as [[days_before days_after]|].
  - destruct (Datetime.minus_days _ _); [|eauto].
    destruct (Datetime.plus_days _ _); [|eauto].
    rewrite Hs, Hnone. eauto.
  - rewrite Hs, Hnone. eauto.
Qed.

(** X8.  The regression and the event window never share an observation:
    every date the fit of [estimate_expected_return] used lies strictly
    before every date of the series [calculate_ar] then returns. *)
Theorem estimation_precedes_event_window (s1 s2 s3 : EventStudy)
        (p : float * float) (series : Series) :
  estimate_expected_return s1 = (Ok p, s2) ->
  calculate_ar s2 = (Ok series, s3) ->
  exists stock_returns market_returns,
    fst (estimation_sample s1) = Ok (stock_returns, market_returns)
    /\ sm_ols_params (Pd.values stock_returns) (Pd.values market_returns)
       = Ok p
    /\ forall t t',
         In t (Pd.index stock_returns) -> In t' (Pd.index series) ->
         date_of t < date_of t'.
Proof.
  intros He Ha. destruct p as [a b].
  destruct (estimate_ok _ _ _ _ He) as (sr & mr & Es & Eo & Hs2).
  exists sr, mr. split; [now rewrite Es|]. split; [exact Eo|].
  intros t t' Ht Ht'.
  destruct (estimation_sample_dates _ _ _ _ Es)
    as (_ & _ & _ & _ & _ & Hdates & _).
  specialize (Hdates t Ht).
  destruct (calculate_ar_entries _ _ _ Ha)
    as (a1 & b1 & st1 & mk1 & _ & _ & _ & _ & _ & Hentries).
  unfold Pd.index in Ht'. apply in_map_iff in Ht'.
  destruct Ht' as ([t0 v] & Heq & Hin). cbn [fst] in Heq. subst t0.
  destruct (Hentries _ _ Hin) as [[Hlo _] _].
  unfold window_start in Hlo. subst s2.
  cbn [event_timestamp event_window_days set_alpha_beta] in Hlo. lia.
Qed.

(** X9.  After [calculate_ar], the sub-window
    [(event_window_days, event_window_days)] is the whole window: it gives
    the same cumulative return, and the same object, as no sub-window. *)
Theorem full_sub_window_is_whole (self self' : EventStudy) (series : Series) :
  calculate_ar self = (Ok series, self') ->
  series <> [] ->
  calculate_car (Some (event_window_days self', event_window_days self'))
                self'
  = calculate_car None self'.
Proof.
  intros H Hne.
  destruct (calculate_ar_stores _ _ _ H Hne) as [Hs _].
  destruct (calculate_ar_entries _ _ _ H)
    as (a1 & b1 & st1 & mk1 & _ & _ & _ & _ & Hcfg & Hentries).
  destruct (calculate_ar_in_range _ _ _ H) as (Hoff & Hlo' & Hhi').
  rewrite (calculate_car_stored _ _ Hs).
  unfold calculate_car. unfold_monad. rewrite Hs.
  destruct Hcfg as (Hts & _ & _ & Hw & _).
  unfold window_start, window_end in Hlo', Hhi'.
  rewrite Hw in Hoff. rewrite Hts, Hw in Hlo', Hhi'.
  rewrite (minus_days_valid _ _ Hoff Hlo'), (plus_days_valid _ _ Hoff Hhi').
  rewrite Hs.
  replace (filter _ series) with series; [reflexivity|].
  symmetry. apply forallb_filter_id. apply forallb_forall.
  intros [t v] Hin. destruct (Hentries _ _ Hin) as [[Hlo Hhi] _].
  unfold window_start, window_end in *. cbn [fst].
  rewrite Z.geb_leb. apply andb_true_intro.
  rewrite <- Hts, <- Hw. split; apply Z.leb_le; lia.
Qed.

End AbnormalReturns.

(** ** Missing values and significance *)

Module NanFacts.

Lemma SFeqb_refl_nan (x : spec_float) : SFeqb x x = false -> x = S754_nan.
Proof.
  destruct x as [s|s| |s m e]; unfold SFeqb; cbn [SFcompare]; try easy.
  - destruct s; discriminate.
  - rewrite Z.compare_refl.
    destruct s; [rewrite <- Pos.compare_antisym|]; rewrite Pos.compare_refl;
      discriminate.
Qed.

Lemma is_nan_sf (f : float) :
  PrimFloat.is_nan f = true <-> Prim2SF f = S754_nan.
Proof.
  unfold PrimFloat.is_nan. rewrite eqb_spec. split.
  - intros H. apply SFeqb_refl_nan. now apply negb_true_iff.
  - intros ->. reflexivity.
Qed.

Lemma ltb_nan_l (f x : float) :
  PrimFloat.is_nan f = true -> (f <? x)%float = false.
Proof.
  intros H. apply is_nan_sf in H. rewrite ltb_spec, H. reflexivity.
Qed.

Lemma ltb_nan_r (f x : float) :
  PrimFloat.is_nan f = true -> (x <? f)%float = false.
Proof.
  intros H. apply is_nan_sf in H. rewrite ltb_spec, H. unfold SFltb.
  destruct (Prim2SF x) as [s|s| |s m e]; try reflexivity;
    destruct s; reflexivity.
Qed.

Lemma eqb_nan_l (f x : float) :
  PrimFloat.is_nan f = true -> (f =? x)%float = false.
Proof.
  intros H. apply is_nan_sf in H. rewrite eqb_spec, H. reflexivity.
Qed.

Lemma sub_nan_r (x m : float) :
  PrimFloat.is_nan m = true -> PrimFloat.is_nan (x - m)%float = true.
Proof.
  intros H. apply is_nan_sf in H. apply is_nan_sf.
  rewrite sub_spec, H. unfold SF64sub, SFsub.
  destruct (Prim2SF x) as [s|s| |s mm e]; reflexivity.
Qed.

Lemma abs_nan (x : float) :
  PrimFloat.is_nan x = true -> PrimFloat.is_nan (PrimFloat.abs x) = true.
Proof.
  intros H. apply is_nan_sf in H. apply is_nan_sf.
  rewrite abs_spec, H. reflexivity.
Qed.

(** [<] is asymmetric. *)
Lemma ltb_asym (a b : float) :
  (a <? b)%float = true -> (b <? a)%float = false.
Proof.
  rewrite !ltb_spec. unfold SFltb.
  rewrite (FloatFacts.SFcompare_antisym (Prim2SF a) (Prim2SF b)).
  destruct (SFcompare (Prim2SF a) (Prim2SF b)) as [[]|];
    cbn [option_map CompOpp]; discriminate || reflexivity.
Qed.

(** The median of an array with a missing entry is missing, and so is the
    Median Absolute Deviation. *)
Lemma median_of_missing (l : list float) :
  existsb PrimFloat.is_nan l = true ->
  PrimFloat.is_nan (Np.median l) = true.
Proof. intros H. unfold Np.median. rewrite H. reflexivity. Qed.

Lemma mad_of_missing (l : list float) :
  existsb PrimFloat.is_nan l = true ->
  PrimFloat.is_nan (Np.median (Np.abs_dev l (Np.median l))) = true.
Proof.
  intros H. apply median_of_missing. pose proof (median_of_missing l H) as Hm.
  destruct l as [|x l]; [discriminate|].
  unfold Np.abs_dev. cbn [map existsb].
  now rewrite (abs_nan _ (sub_nan_r x _ Hm)).
Qed.

End NanFacts.

Section Significance.

Context `{L : Libs}.

Lemma statistical_test_significant (use_robust : bool) (self : EventStudy) :
  tr_is_significant (fst (statistical_test use_robust self))
  = (tr_p_value (fst (statistical_test use_robust self)) <? 0.05)%float.
Proof.
  unfold statistical_test.
  destruct (ar_series self) as [series|]; [|reflexivity].
  destruct (Z.of_nat (length series) =? 0); [reflexivity|].
  destruct use_robust; reflexivity.
Qed.

(** X10.  Whatever the object and the test, the result is significant
    exactly when its p-value is below the 0.05 level; a p-value that is not
    a number is never significant and gets confidence 0, and a significant
    result has a p-value that is a number. *)
Theorem significance_rule (use_robust : bool) (self : EventStudy) :
  let r := fst (statistical_test use_robust self) in
  tr_is_significant r = (tr_p_value r <? 0.05)%float
  /\ (PrimFloat.is_nan (tr_p_value r) = true ->
      tr_is_significant r = false /\ tr_confidence r = 0%float)
  /\ (tr_is_significant r = true ->
      PrimFloat.is_nan (tr_p_value r) = false).
Proof.
  cbv zeta.
  pose proof (statistical_test_significant use_robust self) as Hsig.
  pose proof (statistical_test_confidence use_robust self) as Hc.
  cbv zeta in Hc. split; [exact Hsig|]. split.
  - intros Hn. rewrite Hsig, Hc. unfold confidence_of.
    now rewrite !(NanFacts.ltb_nan_l _ _ Hn).
  - intros Ht. rewrite Hsig in Ht.
    destruct (PrimFloat.is_nan _) eqn:Hn; [|reflexivity].
    now rewrite (NanFacts.ltb_nan_l _ _ Hn) in Ht.
Qed.

(** X11.  One missing value among the observations silences both robust
    checks: the median and the Median Absolute Deviation are then missing,
    the robust test reports (and stores) the statistic 0, and the event day
    is never flagged as an outlier, whatever its value and the threshold. *)
Theorem missing_observation_silences_checks (self : EventStudy)
        (series : Series) (threshold : float) :
  ar_series self = Some series ->
  existsb PrimFloat.is_nan (Pd.values series) = true ->
  tr_t_statistic (fst (statistical_test true self)) = 0%float
  /\ t_statistic (snd (statistical_test true self)) = Some 0%float
  /\ filter_outliers threshold self = false.
Proof.
  intros Hs Hn.
  assert (Hne : series <> []) by (intros ->; discriminate).
  pose proof (NanFacts.median_of_missing _ Hn) as Hmed.
  pose proof (NanFacts.mad_of_missing _ Hn) as Hmad.
  assert (Ht : tr_t_statistic (fst (statistical_test true self)) = 0%float).
  { unfold statistical_test. rewrite Hs.
    destruct series as [|x xs]; [congruence|].
    change (Z.of_nat (length (x :: xs)) =? 0) with false. cbv iota zeta.
    cbn [fst tr_t_statistic].
    now rewrite (NanFacts.ltb_nan_r _ _ Hmad). }
  split; [exact Ht|]. split.
  - rewrite (statistical_test_state true self series Hs Hne), Ht.
    reflexivity.
  - unfold filter_outliers. rewrite Hs.
    destruct (Z.of_nat (length series) <? 3); [reflexivity|]. cbv zeta.
    rewrite (NanFacts.eqb_nan_l _ _ Hmad).
    destruct (ar self) as [event_ar|]; [|reflexivity].
    apply NanFacts.ltb_nan_r, NanFacts.abs_nan, NanFacts.sub_nan_r, Hmed.
Qed.

End Significance.

(** ** The summary and the direction of a completed analysis *)

Section Reporting.

Context `{L : Libs}.

Lemma append_assoc (a b c : string) :
  ((a ++ b) ++ c = a ++ (b ++ c))%string.
Proof. induction a as [|x a IH]; cbn; [reflexivity | now rewrite IH]. Qed.

Lemma append_empty (a : string) : (a ++ "" = a)%string.
Proof. induction a as [|x a IH]; cbn; [reflexivity | now rewrite IH]. Qed.

Lemma starts_with_trans (p q s : string) :
  starts_with p q = true -> starts_with q s = true ->
  starts_with p s = true.
Proof.
  revert q s. induction p as [|a p IH]; intros q s Hpq Hqs; [reflexivity|].
  destruct q as [|b q]; [discriminate|].
  destruct s as [|c s]; [discriminate|].
  cbn [starts_with] in *.
  apply andb_prop in Hpq. destruct Hpq as [Hab Hpq].
  apply andb_prop in Hqs. destruct Hqs as [Hbc Hqs].
  apply Ascii.eqb_eq in Hab, Hbc. subst.
  rewrite Ascii.eqb_refl. cbn [andb]. eauto.
Qed.

(** The summary of an object whose test has run. *)
Lemma summary_parts (self : EventStudy) (event_ar p : float) :
  ar self = Some event_ar -> p_value self = Some p ->
  _generate_summary self
  = (summary_opening_of event_ar
     ++ significance_sentence (p <? 0.05)%float p
     ++ outlier_suffix (filter_outliers 3 self))%string.
Proof.
  intros Ha Hp. unfold _generate_summary. rewrite Ha, Hp. cbv zeta.
  unfold summary_opening_of, significance_sentence, outlier_suffix.
  change config.SIGNIFICANCE_LEVEL with 0.05%float.
  destruct (p <? 0.05)%float, (filter_outliers 3 self);
    rewrite ?append_empty, ?append_assoc; reflexivity.
Qed.

(** X12.  The summary of a completed analysis is made of the values the
    dictionary reports: the opening sentence on the event-day value, then
    the significance sentence chosen by [is_significant] (with the p-value
    of the dictionary to four places), then the outlier flag exactly when
    [is_outlier] is set. *)
Theorem summary_agrees_with_result (self self' : EventStudy)
        (r : ResultDict) :
  run_full_analysis self = (Ok (FullResult r), self') ->
  exists event_ar,
    ar self' = Some event_ar /\ r_ar r = py_round event_ar 6
    /\ r_summary r
       = (summary_opening_of event_ar
          ++ significance_sentence (r_is_significant r) (r_p_value r)
          ++ outlier_suffix (r_is_outlier r))%string.
Proof.
  intros H.
  destruct (success_inversion _ _ _ H)
    as (a & b & series & event_ar & s3 & Hinv).
  cbv zeta in Hinv.
  destruct Hinv as (Hne & Ha & Hb & Har3 & Hser & Hself & Hr).
  exists event_ar.
  assert (Har : ar self' = Some event_ar).
  { rewrite Hself. cbn [ar set_test set_car]. exact Har3. }
  split; [exact Har|]. rewrite Hr.
  cbn [full_result r_ar r_summary r_is_significant r_p_value r_is_outlier].
  split; [reflexivity|].
  rewrite statistical_test_significant.
  apply summary_parts; [exact Har|].
  rewrite Hself at 1. reflexivity.
Qed.

(** X13.  The direction of a completed analysis follows the sign of the
    event-day value, and the summary opens with [Positive] exactly for the
    direction [positive]: for [negative] and for [neutral] alike it opens
    with [Negative]. *)
Theorem direction_and_summary (self self' : EventStudy) (r : ResultDict) :
  run_full_analysis self = (Ok (FullResult r), self') ->
  exists event_ar,
    ar self' = Some event_ar
    /\ (r_direction r = "positive"%string <-> (0 <? event_ar)%float = true)
    /\ (r_direction r = "negative"%string <-> (event_ar <? 0)%float = true)
    /\ (r_direction r = "positive"%string ->
        starts_with "Positive" (r_summary r) = true)
    /\ (r_direction r <> "positive"%string ->
        starts_with "Negative" (r_summary r) = true).
Proof.
  intros H.
  destruct (success_inversion _ _ _ H)
    as (a & b & series & event_ar & s3 & Hinv).
  cbv zeta in Hinv.
  destruct Hinv as (Hne & Ha & Hb & Har3 & Hser & Hself & Hr).
  exists event_ar.
  assert (Har : ar self' = Some event_ar).
  { rewrite Hself. cbn [ar set_test set_car]. exact Har3. }
  split; [exact Har|].
  pose proof (summary_opening self' event_ar Har) as Hs.
  rewrite Hr. cbn [full_result r_direction r_summary].
  destruct (0 <? event_ar)%float eqn:Hpos.
  - rewrite (NanFacts.ltb_asym _ _ Hpos).
    repeat split; try discriminate; try congruence.
    intros _.
    now apply (starts_with_trans "Positive" "Positive abnormal return of ").
  - destruct (event_ar <? 0)%float eqn:Hneg;
      (repeat split; try discriminate; try congruence);
      intros _;
      now apply (starts_with_trans "Negative" "Negative abnormal return of ").
Qed.

End Reporting.

(** ** What is studied never changes *)

Section Configuration.

Context `{L : Libs}.

Lemma same_config_refl (s : EventStudy) : same_config s s.
Proof. now repeat split. Qed.

Lemma same_config_trans (a b c : EventStudy) :
  same_config a b -> same_config b c -> same_config a c.
Proof.
  unfold same_config. intros (? & ? & ? & ? & ? & ?) (? & ? & ? & ? & ? & ?).
  repeat split; congruence.
Qed.

Lemma keeps_ret {A : Type} (a : A) : keeps_config (ret a).
Proof. intros s. apply same_config_refl. Qed.

Lemma keeps_raise {A : Type} (e : string) : keeps_config (@raise A e).
Proof. intros s. apply same_config_refl. Qed.

Lemma keeps_get : keeps_config get.
Proof. intros s. apply same_config_refl. Qed.

Lemma keeps_lift {A : Type} (r : res A) : keeps_config (lift r).
Proof. intros s. apply same_config_refl. Qed.

Lemma keeps_modify (f : EventStudy -> EventStudy) :
  (forall s, same_config s (f s)) -> keeps_config (modify f).
Proof. intros Hf s. apply Hf. Qed.

Lemma keeps_bind {A B : Type} (m : M A) (k : A -> M B) :
  keeps_config m -> (forall a, keeps_config (k a)) ->
  keeps_config (bind m k).
Proof.
  intros Hm Hk s. unfold bind. specialize (Hm s).
  destruct (m s) as [[a|e] s1]; cbn [snd] in *; [|exact Hm].
  exact (same_config_trans _ _ _ Hm (Hk a s1)).
Qed.

Lemma keeps_try {A : Type} (body : M A) (handler : string -> M A) :
  keeps_config body -> (forall e, keeps_config (handler e)) ->
  keeps_config (try_except body handler).
Proof.
  intros Hm Hk s. unfold try_except. specialize (Hm s).
  destruct (body s) as [[a|e] s1]; cbn [snd] in *; [exact Hm|].
  exact (same_config_trans _ _ _ Hm (Hk e s1)).
Qed.

(** A method that reads the object first. *)
Lemma keeps_reading {A : Type} (k : EventStudy -> M A) :
  (forall s, keeps_config (k s)) -> keeps_config (bind get k).
Proof. intros Hk. apply keeps_bind; [apply keeps_get | exact Hk]. Qed.

Ltac keeps_step :=
  match goal with
  | |- keeps_config (bind get _) => apply keeps_reading; intros ?
  | |- keeps_config (bind _ _) => apply keeps_bind; [|intros ?]
  | |- keeps_config (try_except _ _) => apply keeps_try; [|intros ?]
  | |- keeps_config (ret _) => apply keeps_ret
  | |- keeps_config (raise _) => apply keeps_raise
  | |- keeps_config (lift _) => apply keeps_lift
  | |- keeps_config (modify _) =>
      apply keeps_modify; intros ?; now repeat split
  | |- keeps_config (let _ := _ in _) => cbv zeta
  | |- keeps_config (match ?x with _ => _ end) => destruct x
  end.

Lemma keeps_fetch_data : keeps_config fetch_data.
Proof. unfold fetch_data. repeat keeps_step. Qed.

Lemma keeps_estimate_expected_return : keeps_config estimate_expected_return.
Proof.
  unfold estimate_expected_return, estimation_sample. repeat keeps_step.
Qed.

Lemma keeps_calculate_ar : keeps_config calculate_ar.
Proof.
  unfold calculate_ar.
  repeat first [ apply keeps_estimate_expected_return | keeps_step ].
Qed.

Lemma keeps_calculate_car (window : option (Z * Z)) :
  keeps_config (calculate_car window).
Proof.
  unfold calculate_car.
  repeat first [ apply keeps_calculate_ar | keeps_step ].
Qed.

Lemma statistical_test_config (use_robust : bool) (self : EventStudy) :
  same_config self (snd (statistical_test use_robust self)).
Proof.
  unfold statistical_test.
  destruct (ar_series self) as [series|]; [|apply same_config_refl].
  destruct (Z.of_nat (length series) =? 0); [apply same_config_refl|].
  destruct use_robust; now repeat split.
Qed.

Lemma keeps_analysis_steps : keeps_config analysis_steps.
Proof.
  unfold analysis_steps.
  repeat first [ apply keeps_estimate_expected_return
               | apply keeps_calculate_ar
               | apply keeps_calculate_car
               | keeps_step ].
  intros s. destruct (statistical_test true s) as [t s'] eqn:E.
  change s' with (snd (t, s')). rewrite <- E.
  apply statistical_test_config.
Qed.

Lemma keeps_run_full_analysis : keeps_config run_full_analysis.
Proof.
  unfold run_full_analysis.
  repeat first [ apply keeps_fetch_data | apply keeps_analysis_steps
               | keeps_step ].
Qed.

Ltac error_case :=
  left; eexists; split; [reflexivity|];
  first [ left; reflexivity
        | right; left; reflexivity
        | right; right; eexists; reflexivity ].

(** The dictionary is built from the object as the run leaves it. *)
Lemma run_full_analysis_dict (self self' : EventStudy) (d : Dict) :
  run_full_analysis self = (Ok d, self') ->
  (exists msg,
      d = error_dict self' msg
      /\ (msg = "Failed to fetch data"%string
          \/ msg = "No data in event window"%string
          \/ exists e, msg = ("Analysis failed: " ++ e)%string))
  \/ (exists a b c event_ar tr n,
         d = FullResult (full_result self' a b c event_ar tr n) /\ 1 <= n).
Proof.
  rewrite run_full_analysis_eq.
  destruct (fetch_data self) as [[[|]|e] s1]; [| |discriminate].
  - rewrite analysis_steps_eq.
    destruct (estimate_expected_return s1) as [[p|e] s2].
    + destruct (calculate_ar s2) as [[series|e] s3].
      * destruct (Z.of_nat (length series) =? 0) eqn:En.
        -- intros [= <- <-]. error_case.
        -- destruct (calculate_car None s3) as [[c|e] s4].
           ++ cbv zeta.
              destruct (ar (snd (statistical_test true s4))) as [v|].
              ** intros [= <- <-]. right.
                 exists (fst p), (snd p), c, v,
                   (fst (statistical_test true s4)),
                   (Z.of_nat (length series)).
                 split; [reflexivity|].
                 apply Z.eqb_neq in En. lia.
              ** intros [= <- <-]. error_case.
           ++ intros [= <- <-]. error_case.
      * intros [= <- <-]. error_case.
    + intros [= <- <-]. error_case.
  - intros [= <- <-]. error_case.
Qed.

(** X14.  A run never changes what is studied, and its dictionary says so:
    the constructor arguments of the object are the same afterwards; both
    kinds of dictionary carry the ticker and the event timestamp of the
    object; a completed analysis reports the configured estimation window
    (not the number of rows the fit used) and at least one observation; and
    the reason of an error dictionary is one of the two fixed messages or
    starts with [Analysis failed: ]. *)
Theorem analysis_reports_its_configuration (self self' : EventStudy)
        (d : Dict) :
  run_full_analysis self = (Ok d, self') ->
  same_config self self'
  /\ match d with
     | FullResult r =>
         r_ticker r = ticker self
         /\ r_event_timestamp r = isoformat (event_timestamp self)
         /\ r_event_date r
            = date_isoformat (date_of (event_timestamp self))
         /\ r_estimation_window_days r = estimation_window_days self
         /\ 1 <= r_num_observations r
     | ErrorResult e =>
         e_ticker e = ticker self
         /\ e_event_timestamp e = isoformat (event_timestamp self)
         /\ (e_error e = "Failed to fetch data"%string
             \/ e_error e = "No data in event window"%string
             \/ starts_with "Analysis failed: " (e_error e) = true)
     end.
Proof.
  intros H.
  assert (Hcfg : same_config self self').
  { change self' with (snd (Ok d, self')). rewrite <- H.
    apply keeps_run_full_analysis. }
  split; [exact Hcfg|].
  destruct Hcfg as (Hts & Htk & Hest & _).
  destruct (run_full_analysis_dict _ _ _ H)
    as [(msg & -> & Hmsg) | (a & b & c & event_ar & tr & n & -> & Hn)].
  - unfold error_dict.
    cbn [e_ticker e_event_timestamp e_error]. rewrite Hts, Htk.
    repeat split.
    destruct Hmsg as [-> | [-> | [e ->]]]; auto.
  - cbn [full_result r_ticker r_event_timestamp r_event_date
         r_estimation_window_days r_num_observations].
    rewrite Hts, Htk, Hest. now repeat split.
Qed.

End Configuration.

(** ** The convenience function *)

Section QuickStudy.

Context `{L : Libs}.

Lemma run_full_analysis_returns (self : EventStudy) :
  exists d self', run_full_analysis self = (Ok d, self').
Proof.
  rewrite run_full_analysis_eq.
  destruct (fetch_data_returns self) as (b & s1 & ->).
  destruct b; [|eauto].
  destruct (analysis_steps s1) as [[d|e] s2]; eauto.
Qed.

Lemma substring_length (n : nat) (s : string) :
  String.length (substring 0 n s) = Nat.min n (String.length s).
Proof.
  revert s. induction n as [|n IH]; intros [|c s]; cbn; try reflexivity.
  now rewrite IH.
Qed.

Lemma substring_starts (n : nat) (s : string) :
  starts_with (substring 0 n s) s = true.
Proof.
  revert s. induction n as [|n IH]; intros [|c s]; cbn; try reflexivity.
  now rewrite Ascii.eqb_refl, IH.
Qed.

Lemma substring_all (n : nat) (s : string) :
  (String.length s <= n)%nat -> substring 0 n s = s.
Proof.
  revert s. induction n as [|n IH]; intros [|c s] Hl; cbn in *;
    try reflexivity; try lia.
  rewrite IH; [reflexivity | lia].
Qed.

(** X15.  [quick_event_study] never raises.  It returns the dictionary of
    a run with the default windows (252 estimation days, 3 event-window
    days) against SPY, for the given ticker and timestamp; the event text
    is attached only when it is not empty, as its first 200 characters:
    a prefix of the text, the whole text when that is no longer. *)
Theorem quick_event_study_result (ticker : string) (ts : Timestamp)
        (event_text : string) :
  exists d txt,
    quick_event_study ticker ts event_text = Ok (d, txt)
    /\ fst (run_full_analysis (EventStudy_init ts ticker 252 3 "SPY"))
       = Ok d
    /\ match d with
       | FullResult r =>
           r_ticker r = ticker /\ r_event_timestamp r = isoformat ts
           /\ r_estimation_window_days r = 252
       | ErrorResult e =>
           e_ticker e = ticker /\ e_event_timestamp e = isoformat ts
       end
    /\ (txt = None <-> event_text = EmptyString)
    /\ forall t, txt = Some t ->
         starts_with t event_text = true
         /\ String.length t = Nat.min 200 (String.length event_text)
         /\ ((String.length event_text <= 200)%nat -> t = event_text).
Proof.
  unfold quick_event_study. cbv zeta.
  destruct (run_full_analysis_returns (EventStudy_init ts ticker 252 3 "SPY"))
    as (d & s & Hrun).
  rewrite Hrun. cbn [fst].
  exists d. eexists. split; [reflexivity|]. split; [reflexivity|].
  split.
  - pose proof (keeps_run_full_analysis
                  (EventStudy_init ts ticker 252 3 "SPY")) as Hcfg.
    rewrite Hrun in Hcfg. cbn [snd] in Hcfg.
    destruct Hcfg as (Hts & Htk & Hest & _).
    unfold EventStudy_init in Hts, Htk, Hest. cbn in Hts, Htk, Hest.
    destruct (run_full_analysis_dict _ _ _ Hrun)
      as [(msg & -> & _) | (a & b & c & event_ar & tr & n & -> & _)].
    + unfold error_dict. cbn [e_ticker e_event_timestamp].
      now rewrite <- Hts, <- Htk.
    + cbn [full_result r_ticker r_event_timestamp r_estimation_window_days].
      now rewrite <- Hts, <- Htk, <- Hest.
  - destruct event_text as [|c rest].
    + split; [easy|]. intros t [=].
    + split; [split; discriminate|].
      intros t [= <-].
      split; [exact (substring_starts 200 (String c rest))|].
      split; [exact (substring_length 200 (String c rest))|].
      exact (substring_all 200 (String c rest)).
Qed.

End QuickStudy.

(** ** Further runs of the reference instance *)

Lemma fetch_success_witness :
  match @fetch_data Ref.libs Ref.study with
  | (Ok true, s1) =>
      exists st mk,
        stock_data s1 = Some st /\ market_data s1 = Some mk
        /\ 50 <= Frame.len st /\ same_config Ref.study s1
  | _ => False
  end.
Proof.
  destruct (@fetch_data Ref.libs Ref.study) as [[[|]|e] s1] eqn:E;
    try (vm_compute in E; discriminate E).
  destruct (@fetch_success Ref.libs Ref.study s1 E)
    as (stock & market & st & mk & _ & _ & _ & _ & Hst & Hmk & _ & _
        & Hlen & Hcfg).
  exists st, mk.
  split; [exact Hst|]. split; [exact Hmk|]. split; [exact Hlen|exact Hcfg].
Defined.

Lemma estimate_touches_parameters_only_witness :
  (let s1 := snd (@fetch_data Ref.libs Ref.study) in
   match @estimate_expected_return Ref.libs s1 with
   | (Ok (a, b), s2) =>
       s2 = set_alpha_beta a b s1 /\ stock_data s2 = stock_data s1
   | _ => False
   end)
  /\ match @estimate_expected_return Ref.libs (Ref.two_rows 1) with
     | (Raised _, s2) =>
         (exists a, alpha s2 = Some a) /\ beta s2 = None
         /\ stock_data s2 = stock_data (Ref.two_rows 1)
     | _ => False
     end.
Proof.
  split.
  - intros s1.
    destruct (@estimate_expected_return Ref.libs s1) as [[[a b]|e] s2] eqn:E;
      [|vm_compute in E; discriminate E].
    pose proof (@estimate_touches_parameters_only Ref.libs s1 s2 _ E) as H.
    cbv beta iota in H. destruct H as ((H1 & _) & H2 & _).
    split; assumption.
  - destruct (@estimate_expected_return Ref.libs (Ref.two_rows 1))
      as [[p|e] s2] eqn:E; [vm_compute in E; discriminate E|].
    pose proof (@estimate_touches_parameters_only Ref.libs _ s2 _ E) as H.
    cbv beta iota in H. destruct H as (Hr & Hst & _).
    destruct Hr as [-> | (sr & mr & a & _ & _ & _ & Ha & Hb)].
    + vm_compute in E. discriminate E.
    + split; [now exists a|]. split; [exact Hb | exact Hst].
Defined.

Lemma methods_require_data_witness :
  @calculate_car Ref.libs None Ref.index_study
  = (Raised "Data not fetched. Call fetch_data() first."%string,
     Ref.index_study).
Proof.
  pose proof (@methods_require_data Ref.libs Ref.index_study
                (or_introl eq_refl)) as H.
  cbv zeta in H. destruct H as [_ H].
  destruct (H (or_introl eq_refl)) as [_ Hc]. exact (Hc eq_refl None).
Defined.

Lemma calculate_ar_reuses_parameters_witness :
  let self := set_alpha_beta 0.001 1.2
                (snd (@fetch_data Ref.libs Ref.study)) in
  @calculate_ar Ref.libs self = @calculate_ar Ref.offline self.
Proof.
  intros self.
  exact (proj1 (calculate_ar_reuses_parameters Ref.libs Ref.offline self
                  0.001 1.2 eq_refl eq_refl)).
Defined.

Lemma abnormal_return_values_witness :
  let self := snd (@estimate_expected_return Ref.libs
                     (snd (@fetch_data Ref.libs Ref.study))) in
  match @calculate_ar Ref.libs self with
  | (Ok series, self') =>
      forall t v, In (t, v) series ->
        window_start self <= date_of t <= window_end self
  | _ => False
  end.
Proof.
  intros self.
  destruct (@calculate_ar Ref.libs self) as [[series|e] self'] eqn:E;
    [|vm_compute in E; discriminate E].
  destruct (@abnormal_return_values Ref.libs self self' series E)
    as (a & b & st & mk & _ & _ & _ & _ & _ & Hentries).
  intros t v Hin. exact (proj1 (Hentries t v Hin)).
Defined.

Lemma empty_window_stores_nothing_witness :
  match @calculate_ar Ref.libs Ref.stale_data with
  | (Ok [], self') =>
      ar_series self' = None
      /\ exists e,
           @calculate_car Ref.libs None Ref.stale_data = (Raised e, self')
  | _ => False
  end.
Proof.
  destruct (@calculate_ar Ref.libs Ref.stale_data)
    as [[[|x xs]|e] self'] eqn:E;
    try (vm_compute in E; discriminate E).
  destruct (@empty_window_stores_nothing Ref.libs Ref.stale_data self' E)
    as (Hs & _ & _ & Hc).
  split; [exact Hs | exact (Hc eq_refl None)].
Defined.

Lemma estimation_precedes_event_window_witness :
  let s1 := snd (@fetch_data Ref.libs Ref.study) in
  match @estimate_expected_return Ref.libs s1 with
  | (Ok p, s2) =>
      match @calculate_ar Ref.libs s2 with
      | (Ok series, s3) =>
          exists stock_returns market_returns,
            fst (estimation_sample s1) = Ok (stock_returns, market_returns)
            /\ forall t t',
                 In t (Pd.index stock_returns) ->
                 In t' (Pd.index series) -> date_of t < date_of t'
      | _ => False
      end
  | _ => False
  end.
Proof.
  intros s1.
  destruct (@estimate_expected_return Ref.libs s1) as [[p|e] s2] eqn:E;
    [|vm_compute in E; discriminate E].
  destruct (@calculate_ar Ref.libs s2) as [[series|e] s3] eqn:E2.
  - destruct (@estimation_precedes_event_window Ref.libs s1 s2 s3 p series
                E E2) as (sr & mr & Hs & _ & Hd).
    exists sr, mr. split; assumption.
  - assert (Hs2 : s2 = snd (@estimate_expected_return Ref.libs s1))
      by (rewrite E; reflexivity).
    rewrite Hs2 in E2. vm_compute in E2. discriminate E2.
Defined.

Lemma full_sub_window_is_whole_witness :
  let self := snd (@estimate_expected_return Ref.libs
                     (snd (@fetch_data Ref.libs Ref.study))) in
  match @calculate_ar Ref.libs self with
  | (Ok series, self') =>
      @calculate_car Ref.libs (Some (1, 1)) self'
      = @calculate_car Ref.libs None self'
  | _ => False
  end.
Proof.
  intros self.
  destruct (@calculate_ar Ref.libs self) as [[series|e] self'] eqn:E;
    [|vm_compute in E; discriminate E].
  assert (Hne : series <> []).
  { intros ->. vm_compute in E. discriminate E. }
  assert (Hw : event_window_days self' = 1).
  { assert (Hs : self' = snd (@calculate_ar Ref.libs self))
      by (rewrite E; reflexivity).
    rewrite Hs. vm_compute. reflexivity. }
  pose proof (@full_sub_window_is_whole Ref.libs self self' series E Hne)
    as H.
  rewrite Hw in H. exact H.
Defined.

Lemma missing_observation_silences_checks_witness :
  tr_t_statistic (fst (@statistical_test Ref.libs true Ref.with_missing))
  = 0%float
  /\ filter_outliers 3 Ref.with_missing = false.
Proof.
  assert (Hs : ar_series Ref.with_missing
               = Some (observations Ref.with_missing)) by reflexivity.
  assert (Hn : existsb PrimFloat.is_nan
                 (Pd.values (observations Ref.with_missing)) = true)
    by (vm_compute; reflexivity).
  destruct (@missing_observation_silences_checks Ref.libs Ref.with_missing
              _ 3%float Hs Hn) as (H1 & _ & H3).
  split; assumption.
Defined.

Lemma summary_agrees_with_result_witness :
  match @run_full_analysis Ref.libs Ref.study with
  | (Ok (FullResult r), self') =>
      exists event_ar,
        ar self' = Some event_ar /\ r_ar r = Ref.round event_ar 6
        /\ r_summary r
           = (@summary_opening_of Ref.libs event_ar
              ++ @significance_sentence Ref.libs (r_is_significant r)
                                        (r_p_value r)
              ++ outlier_suffix (r_is_outlier r))%string
  | _ => False
  end.
Proof.
  destruct (@run_full_analysis Ref.libs Ref.study) as [[[e|r]|e] self']
    eqn:E; try (vm_compute in E; discriminate E).
  exact (@summary_agrees_with_result Ref.libs Ref.study self' r E).
Defined.

Lemma direction_and_summary_witness :
  match @run_full_analysis Ref.libs Ref.study with
  | (Ok (FullResult r), self') =>
      exists event_ar,
        ar self' = Some event_ar
        /\ (r_direction r = "positive"%string
            <-> (0 <? event_ar)%float = true)
        /\ (r_direction r = "negative"%string
            <-> (event_ar <? 0)%float = true)
        /\ (r_direction r = "positive"%string ->
            starts_with "Positive" (r_summary r) = true)
        /\ (r_direction r <> "positive"%string ->
            starts_with "Negative" (r_summary r) = true)
  | _ => False
  end.
Proof.
  destruct (@run_full_analysis Ref.libs Ref.study) as [[[e|r]|e] self']
    eqn:E; try (vm_compute in E; discriminate E).
  exact (@direction_and_summary Ref.libs Ref.study self' r E).
Defined.

Lemma analysis_reports_its_configuration_witness :
  match @run_full_analysis Ref.libs Ref.study with
  | (Ok (FullResult r), self') =>
      same_config Ref.study self'
      /\ r_ticker r = "TEST"%string
      /\ r_estimation_window_days r = 252
      /\ 1 <= r_num_observations r
  | _ => False
  end.
Proof.
  destruct (@run_full_analysis Ref.libs Ref.study) as [[[e|r]|e] self']
    eqn:E; try (vm_compute in E; discriminate E).
  destruct (@analysis_reports_its_configuration Ref.libs Ref.study self'
              (FullResult r) E) as (Hc & Ht & _ & _ & Hw & Hn).
  split; [exact Hc|]. split; [exact Ht|]. split; [exact Hw|exact Hn].
Defined.
